(** * ConfigMaster: the greeting resolver and template listing of [src/main.py]

    A shallow embedding of [greet], [async_greet] and [list_templates].
    Python strings are sequences of Unicode code points; exceptions are the
    values of a result type; the process-wide logging state, the caller's
    [AppConfig] object and the observable calls are threaded through an
    explicit world. *)

From Stdlib Require Import String Ascii.
From stdpp Require Import base decidable option list numbers countable gmap.

Set Default Proof Using "Type".
Local Open Scope N_scope.

(** ** Python strings *)

(** A [str] is a list of code points; [len] is its length. *)
Definition char := N.
Definition str := list N.

(** An ASCII literal of the source, as code points. *)
Definition lit (s : string) : str :=
  List.map N_of_ascii (list_ascii_of_string s).

Definition str_eqb (a b : str) : bool := bool_decide (a = b).

(** [str.isspace] on one code point: the characters [str.strip()] removes. *)
Definition is_space (c : char) : bool :=
  ((9 <=? c) && (c <=? 13)) || ((28 <=? c) && (c <=? 32))
  || (c =? 133) || (c =? 160) || (c =? 5760)
  || ((8192 <=? c) && (c <=? 8202))
  || (c =? 8232) || (c =? 8233) || (c =? 8239) || (c =? 8287) || (c =? 12288).

Fixpoint lstrip (s : str) : str :=
  match s with
  | c :: rest => if is_space c then lstrip rest else s
  | [] => []
  end.

Definition rstrip (s : str) : str := rev (lstrip (rev s)).

(** [s.strip()] *)
Definition strip (s : str) : str := rstrip (lstrip s).

(** Python truthiness of a string, of an optional string. *)
Definition truthy (s : str) : bool :=
  match s with [] => false | _ :: _ => true end.

Definition truthy_opt (o : option str) : bool :=
  match o with Some s => truthy s | None => false end.

(** [o or ""] for an optional string. *)
Definition or_empty (o : option str) : str :=
  match o with
  | Some s => if truthy s then s else []
  | None => []
  end.

(** [s.split(sep)] for a one-character separator: every separator cuts, so
    [n] separators give [n + 1] pieces, empty ones included. *)
Fixpoint split (sep : char) (s : str) : list str :=
  match s with
  | [] => [[]]
  | c :: rest =>
      if c =? sep then [] :: split sep rest
      else match split sep rest with
           | piece :: pieces => (c :: piece) :: pieces
           | [] => [[c]]
           end
  end.

(** [sep.join(parts)] *)
Fixpoint join (sep : str) (parts : list str) : str :=
  match parts with
  | [] => []
  | [p] => p
  | p :: ps => p ++ sep ++ join sep ps
  end.

(** [needle in hay] *)
Definition contains (hay needle : str) : Prop :=
  exists before after, hay = before ++ needle ++ after.

Fixpoint starts_with (s prefix : str) : bool :=
  match prefix, s with
  | [], _ => true
  | p :: ps, c :: cs => (c =? p) && starts_with cs ps
  | _ :: _, [] => false
  end.

Fixpoint containsb (hay needle : str) : bool :=
  starts_with hay needle
  || match hay with
     | [] => false
     | _ :: rest => containsb rest needle
     end.

(** ** Exceptions and results *)

(** The exception classes that reach [main.py]'s handlers.  [ValidationError]
    carries the field-to-problem dict the module builds; [KeyError] its key;
    [ValueError] its message.  [CancelledError] is what a cancelled task
    receives at its suspension.  [Unmodelled] stands for the behaviour of
    [str.format] on replacement fields with a conversion, a format spec, an
    attribute, an index or a position, which this development does not
    interpret. *)
Inductive exn : Type :=
| ValidationError (errors : list (str * str))
| ValueError (msg : str)
| KeyError (key : str)
| IndexError
| TimeoutError
| CancelledError
| Unmodelled.

(** [isinstance] tests of the [except] clauses.  [ValidationError] is taken
    not to derive from [ValueError]: [main] lists both in one clause. *)
Definition is_ValueError (e : exn) : bool :=
  match e with ValueError _ => true | _ => false end.

Definition is_KeyError (e : exn) : bool :=
  match e with KeyError _ => true | _ => false end.

Definition is_TimeoutError (e : exn) : bool :=
  match e with TimeoutError => true | _ => false end.

Definition is_CancelledError (e : exn) : bool :=
  match e with CancelledError => true | _ => false end.

(** [CancelledError] derives from [BaseException], the others from
    [Exception]. *)
Definition is_Exception (e : exn) : bool := negb (is_CancelledError e).

Inductive Result (A : Type) : Type :=
| Ok (a : A)
| Raise (e : exn).
Arguments Ok {A} a.
Arguments Raise {A} e.

Definition result_bind {A B} (r : Result A) (k : A -> Result B) : Result B :=
  match r with
  | Ok a => k a
  | Raise e => Raise e
  end.

(** ** [str.format] with keyword arguments *)

Definition lbrace : char := 123.
Definition rbrace : char := 125.

(** Characters that open a conversion, a format spec, an attribute or an
    index inside a replacement field. *)
Definition field_operator (c : char) : bool :=
  (c =? 33) || (c =? 58) || (c =? 46) || (c =? 91).

Definition is_ascii_digit (c : char) : bool := (48 <=? c) && (c <=? 57).

(** An ASCII character that is no decimal digit; a field holding one is a
    keyword, never a position. *)
Definition keyword_char (c : char) : bool :=
  (c <? 128) && negb (is_ascii_digit c).

Fixpoint kw_lookup (key : str) (kwargs : list (str * str)) : option str :=
  match kwargs with
  | [] => None
  | (k, v) :: rest => if str_eqb k key then Some v else kw_lookup key rest
  end.

(** The value of one replacement field.  No positional argument is ever
    passed, so the empty field (automatic numbering) is out of range. *)
Definition field_value (kwargs : list (str * str)) (field : str) : Result str :=
  match kw_lookup field kwargs with
  | Some v => Ok v
  | None =>
      match field with
      | [] => Raise IndexError
      | _ => if existsb keyword_char field then Raise (KeyError field)
             else Raise Unmodelled
      end
  end.

(** The scanner of [str.format], left to right; the first failure wins.
    [field] is [None] in literal text and [Some acc] inside a replacement
    field whose name read so far is [rev acc]. *)
Fixpoint format_from (kwargs : list (str * str)) (field : option str)
    (pattern : str) : Result str :=
  match pattern with
  | [] =>
      match field with
      | None => Ok []
      | Some _ => Raise (ValueError (lit "expected '}' before end of string"))
      end
  | c :: rest =>
      match field with
      | None =>
          if c =? lbrace then
            match rest with
            | [] => Raise (ValueError (lit "Single '{' encountered in format string"))
            | c' :: rest' =>
                if c' =? lbrace
                then result_bind (format_from kwargs None rest')
                       (fun out => Ok (lbrace :: out))
                else format_from kwargs (Some []) rest
            end
          else if c =? rbrace then
            match rest with
            | [] => Raise (ValueError (lit "Single '}' encountered in format string"))
            | c' :: rest' =>
                if c' =? rbrace
                then result_bind (format_from kwargs None rest')
                       (fun out => Ok (rbrace :: out))
                else Raise (ValueError (lit "Single '}' encountered in format string"))
            end
          else result_bind (format_from kwargs None rest)
                 (fun out => Ok (c :: out))
      | Some acc =>
          if c =? rbrace then
            result_bind (field_value kwargs (rev acc)) (fun v =>
            result_bind (format_from kwargs None rest) (fun out =>
            Ok (v ++ out)))
          else if c =? lbrace then
            Raise (ValueError (lit "unexpected '{' in field name"))
          else if field_operator c then Raise Unmodelled
          else format_from kwargs (Some (c :: acc)) rest
      end
  end.

(** [pattern.format(k1=v1, ...)], the keywords in call order. *)
Definition format (pattern : str) (kwargs : list (str * str)) : Result str :=
  format_from kwargs None pattern.


(** ** The imported modules, as [main.py] uses them *)

(** [src.config.i18n]: what [get_translation] returns; [greet] reads the two
    affixes. *)
Record Translation : Type := {
  greeting_prefix : str;
  greeting_suffix : str
}.

(** [src.config.templates]: one registry entry as [list_templates] prints it.
    [category] is the [value] of the entry's [TemplateCategory] member. *)
Record TemplateInfo : Type := {
  pattern : str;
  category : str;
  tags : list str;
  description : str
}.

(** [src.config.settings]: the fields of [AppConfig].  [lang] is the type of
    the values the [language] field can hold. *)
Record AppConfig (lang : Type) : Type := {
  debug : bool;
  language : lang;
  template_style : str;
  custom_message : option str;
  async_mode : bool;
  log_level : str
}.
Arguments debug {lang} _.
Arguments language {lang} _.
Arguments template_style {lang} _.
Arguments custom_message {lang} _.
Arguments async_mode {lang} _.
Arguments log_level {lang} _.

(** ** The world: logging state, the caller's config object, observable calls *)

(** Levels of the [logging] module. *)
Definition DEBUG : Z := 10.
Definition INFO : Z := 20.
Definition ERROR : Z := 40.

(** An argument of a lazily formatted log call. *)
Inductive LogArg : Type :=
| ArgStr (s : str)
| ArgExn (e : exn)
| ArgList (l : list str).

Inductive Event (lang : Type) : Type :=
| SetLevel (level : Z)                                  (* logging.getLogger().setLevel *)
| LogCall (level : Z) (fmt : str) (args : list LogArg)  (* logger.debug / info / error *)
| GetTranslation (l : lang)                             (* get_translation(l) *)
| GetTemplate (style : str)                             (* TemplateManager.get_template *)
| MakeCategory (raw : str)                              (* TemplateCategory(raw) *)
| GetByCategory (cat : str)                             (* TemplateManager.get_by_category *)
| SearchByTags (query : gset str)                       (* TemplateManager.search_by_tags *)
| ListTemplates                                         (* TemplateManager.list_templates *)
| PrintCall (text : str)                                    (* print(text) *)
| Sleep (ms : N).                                       (* await asyncio.sleep *)
Arguments SetLevel {lang} level.
Arguments LogCall {lang} level fmt args.
Arguments GetTranslation {lang} l.
Arguments GetTemplate {lang} style.
Arguments MakeCategory {lang} raw.
Arguments GetByCategory {lang} cat.
Arguments SearchByTags {lang} query.
Arguments ListTemplates {lang}.
Arguments PrintCall {lang} text.
Arguments Sleep {lang} ms.

(** [root_level] is the level of the root logger, shared by the whole
    process.  [config_obj] is the object bound to the [config] parameter
    ([None] when the caller passes [None]); Python hands it over by
    reference, so a write to one of its fields would show here.  [trace]
    lists the calls made so far, oldest first. *)
Record World (lang : Type) : Type := {
  root_level : Z;
  config_obj : option (AppConfig lang);
  trace : list (Event lang)
}.
Arguments root_level {lang} _.
Arguments config_obj {lang} _.
Arguments trace {lang} _.
Arguments Build_World {lang} _ _ _.

(** The world after some more calls have been observed. *)
Definition observe {lang : Type} (w : World lang) (events : list (Event lang))
    : World lang :=
  {| root_level := root_level w;
     config_obj := config_obj w;
     trace := trace w ++ events |}.

(** Computations that read and write the world and may raise. *)
Definition M (lang A : Type) : Type := World lang -> Result A * World lang.

Module Py.
Section Ops.
Context {lang : Type}.

Definition ret {A} (a : A) : M lang A := fun w => (Ok a, w).

Definition raise {A} (e : exn) : M lang A := fun w => (Raise e, w).

Definition bind {A B} (c : M lang A) (k : A -> M lang B) : M lang B :=
  fun w => match c w with
           | (Ok a, w') => k a w'
           | (Raise e, w') => (Raise e, w')
           end.

(** A pure call that may fail. *)
Definition lift {A} (r : Result A) : M lang A := fun w => (r, w).

Definition emit (e : Event lang) : M lang unit :=
  fun w => (Ok tt, observe w [e]).

(** [logging.getLogger().setLevel(level)] *)
Definition setLevel (level : Z) : M lang unit :=
  fun w => (Ok tt, {| root_level := level;
                      config_obj := config_obj w;
                      trace := trace w ++ [SetLevel level] |}).

Definition log (level : Z) (fmt : string) (args : list LogArg) : M lang unit :=
  emit (LogCall level (lit fmt) args).

(** The object the caller passed as [config]. *)
Definition read_config : M lang (option (AppConfig lang)) :=
  fun w => (Ok (config_obj w), w).

(** [try: body  except <classes>: handler], the handler seeing the
    exception; an exception outside [classes] passes through. *)
Definition try_except {A} (body : M lang A) (classes : exn -> bool)
    (handler : exn -> M lang A) : M lang A :=
  fun w => match body w with
           | (Ok a, w') => (Ok a, w')
           | (Raise e, w') =>
               if classes e then handler e w' else (Raise e, w')
           end.

(** Time, as one coroutine sees it, in milliseconds from the call.  The
    coroutines here suspend once; [resume_at] is the time at which the
    event loop would hand control back after that suspension.

    [await asyncio.sleep(ms)] inside a [timeout] block with the given
    deadline: the task is resumed, unless the deadline came first and the
    block cancelled it. *)
Definition asyncio_sleep (ms deadline resume_at : N) : M lang unit :=
  fun w => if deadline <? resume_at
           then (Raise CancelledError, observe w [Sleep ms])
           else (Ok tt, observe w [Sleep ms]).

(** [async with asyncio.timeout(delay): body], entered at time 0: the body
    runs under the deadline [delay]; once the deadline has passed, the
    cancellation the block caused leaves it as [TimeoutError]. *)
Definition asyncio_timeout {A} (delay resume_at : N) (body : N -> M lang A)
    : M lang A :=
  try_except (body delay)
    (fun e => is_CancelledError e && (delay <? resume_at))
    (fun _ => raise TimeoutError).
End Ops.
End Py.

Declare Scope py_scope.
Delimit Scope py_scope with py.
Notation "'let*' x ':=' c 'in' k" := (Py.bind c (fun x => k))
  (at level 10, x name, c at level 100, k at level 200) : py_scope.

Local Open Scope py_scope.

(** ** The functions of [main.py] *)

Module Main.
Section Main.
Context {lang : Type} `{EqDecision lang}.

(** The members [Language.EN] and [Language.JA]. *)
Variable Language_EN Language_JA : lang.

(** [get_translation] and [TemplateManager]'s class methods live in modules
    that are not part of this file: each is a pure call that returns or
    raises.  The value of [get_template] is the object [greet] calls
    [.format] on, the pattern. *)
Variable get_translation : lang -> Result Translation.
Variable get_template : str -> Result str.
Variable get_by_category : str -> Result (list (str * TemplateInfo)).
Variable search_by_tags : gset str -> Result (list (str * TemplateInfo)).
Variable TemplateManager_list_templates : Result (list (str * TemplateInfo)).

(** [[c.value for c in TemplateCategory]], in definition order, and the
    builtin [repr] on strings, used by the enum's error message. *)
Variable TemplateCategory_values : list str.
Variable repr : str -> str.

(** Modelled from the spec: the defaults of [AppConfig()], whose class is
    not under src/ (section 4.3: debug off, language EN, style "default",
    no custom message, async off). *)
Definition AppConfig_default : AppConfig lang :=
  {| debug := false;
     language := Language_EN;
     template_style := lit "default";
     custom_message := None;
     async_mode := false;
     log_level := lit "INFO" |}.

(** The two patterns written out in [greet] for the "default" style.  The
    separator of the first is the two code points U+00E3 U+20AC of the
    source file. *)
Definition DEFAULT_PATTERN_JA : str :=
  lit "{prefix}" ++ [227; 8364] ++ lit "{name}! {message}".

Definition DEFAULT_PATTERN_LATIN : str := lit "{prefix}, {name}! {message}".

(** The pattern [greet] formats, given the one the registry returned. *)
Definition chosen_pattern (cfg : AppConfig lang) (registered : str) : str :=
  if str_eqb (template_style cfg) (lit "default") then
    if bool_decide (language cfg = Language_JA)
    then DEFAULT_PATTERN_JA else DEFAULT_PATTERN_LATIN
  else registered.

(** The keyword arguments of the [template.format] call. *)
Definition greet_kwargs (name : str) (cfg : AppConfig lang)
    (translations : Translation) : list (str * str) :=
  [ (lit "name", name);
    (lit "message", or_empty (custom_message cfg));
    (lit "prefix", greeting_prefix translations);
    (lit "suffix", greeting_suffix translations) ].

Definition greet (name : str) : M lang str :=
  if negb (truthy name) || negb (truthy (strip name)) then
    Py.raise (ValidationError [(lit "name", lit "Name cannot be empty")])
  else if (1000 <? length name)%nat then
    Py.raise (ValidationError
                [(lit "name", lit "Name is too long (max 1000 characters)")])
  else
    let* config := Py.read_config in
    let cfg := match config with
               | Some c => c
               | None => AppConfig_default
               end in
    let* _ := (if debug cfg then
                 let* _ := Py.setLevel DEBUG in
                 Py.log DEBUG "Generating greeting for %s" [ArgStr name]
               else Py.ret tt) in
    let* translations :=
      Py.try_except
        (let* _ := Py.emit (GetTranslation (language cfg)) in
         Py.lift (get_translation (language cfg)))
        is_ValueError
        (fun e => let* _ := Py.log ERROR "Language error: %s" [ArgExn e] in
                  Py.raise e) in
    let* template :=
      Py.try_except
        (let* _ := Py.emit (GetTemplate (template_style cfg)) in
         let* template := Py.lift (get_template (template_style cfg)) in
         if str_eqb (template_style cfg) (lit "default") then
           if bool_decide (language cfg = Language_JA)
           then Py.ret DEFAULT_PATTERN_JA
           else Py.ret DEFAULT_PATTERN_LATIN
         else Py.ret template)
        is_KeyError
        (fun e => let* _ := Py.log ERROR "Template style '%s' not found"
                              [ArgStr (template_style cfg)] in
                  Py.raise e) in
    let* message :=
      Py.try_except
        (Py.lift (format template (greet_kwargs name cfg translations)))
        (fun e => is_KeyError e || is_ValueError e)
        (fun e => let* _ := Py.log ERROR "Template formatting error: %s"
                              [ArgExn e] in
                  Py.raise e) in
    Py.ret message.

(** *** [async_greet] *)

(** [asyncio.timeout(5.0)] and [asyncio.sleep(0.1)], in milliseconds. *)
Definition TIMEOUT_MS : N := 5000.
Definition SLEEP_MS : N := 100.

(** The coroutine suspends once, in [asyncio.sleep]; [greet] has no
    suspension point, runs in one step of the event loop and is taken to
    use no time (spec, section 5), so [resume_at] is also the time at which
    the wrapped computation completes.  A deadline that falls on
    [resume_at] itself counts as met. *)
Definition async_greet (resume_at : N) (name : str) : M lang str :=
  Py.try_except
    (Py.asyncio_timeout TIMEOUT_MS resume_at (fun deadline =>
       let* _ := Py.asyncio_sleep SLEEP_MS deadline resume_at in
       greet name))
    is_Exception
    (fun e =>
       if is_TimeoutError e then
         let* _ := Py.log ERROR "Async greeting timed out for name: %s"
                     [ArgStr name] in
         Py.raise e
       else
         let* _ := Py.log ERROR "Async greeting error: %s" [ArgExn e] in
         Py.raise e).

(** *** [list_templates] *)

(** [TemplateCategory(raw)]: lookup of a member by value.  A member is
    represented by its value. *)
Definition TemplateCategory (raw : str) : Result str :=
  if bool_decide (raw ∈ TemplateCategory_values) then Ok raw
  else Raise (ValueError (repr raw ++ lit " is not a valid TemplateCategory")).

Definition COMMA : char := 44.

(** The five [print] calls for one entry. *)
Definition print_template (entry : str * TemplateInfo) : M lang unit :=
  let (name, info) := entry in
  let* _ := Py.emit (PrintCall ([10] ++ name ++ lit ":")) in
  let* _ := Py.emit (PrintCall (lit "  Pattern: " ++ pattern info)) in
  let* _ := Py.emit (PrintCall (lit "  Category: " ++ category info)) in
  let* _ := Py.emit (PrintCall (lit "  Tags: " ++ join (lit ", ") (tags info))) in
  Py.emit (PrintCall (lit "  Description: " ++ description info)).

Fixpoint print_templates (entries : list (str * TemplateInfo)) : M lang unit :=
  match entries with
  | [] => Py.ret tt
  | entry :: rest =>
      let* _ := print_template entry in print_templates rest
  end.

(** [category] and [tags] are [Optional[str]]; [if category:] and
    [elif tags:] hold for a string that is neither [None] nor empty. *)
Definition list_templates (category tags : option str) : M lang unit :=
  Py.try_except
    (let* templates :=
       match category with
       | Some ((_ :: _) as category) =>
           Py.try_except
             (let* _ := Py.emit (MakeCategory category) in
              let* cat := Py.lift (TemplateCategory category) in
              let* _ := Py.emit (GetByCategory cat) in
              Py.lift (get_by_category cat))
             is_ValueError
             (fun e =>
                let* _ := Py.log ERROR "Invalid category: %s"
                            [ArgStr category] in
                let* _ := Py.log INFO "Valid categories: %s"
                            [ArgList TemplateCategory_values] in
                Py.raise e)
       | _ =>
           match tags with
           | Some ((_ :: _) as tags) =>
               if negb (forallb (fun t => truthy (strip t)) (split COMMA tags))
               then Py.raise (ValidationError
                                [(lit "tags", lit "Empty tags are not allowed")])
               else if (10 <? length (split COMMA tags))%nat
               then Py.raise (ValidationError
                                [(lit "tags", lit "Too many tags (max 10)")])
               else
                 let tag_set : gset str :=
                   list_to_set (List.map strip (split COMMA tags)) in
                 let* _ := Py.emit (SearchByTags tag_set) in
                 Py.lift (search_by_tags tag_set)
           | _ =>
               let* _ := Py.emit ListTemplates in
               Py.lift TemplateManager_list_templates
           end
       end in
     print_templates templates)
    (fun _ => true)
    (fun e => let* _ := Py.log ERROR "Error listing templates: %s" [ArgExn e] in
              Py.raise e).
End Main.
End Main.

Arguments Main.AppConfig_default {lang} Language_EN.
Arguments Main.greet_kwargs {lang} name cfg translations.
Export Main.

(** The configuration in force during a call: the caller's object, or
    [AppConfig()] when there is none ([config or AppConfig()]). *)
Definition effective_config {lang : Type} (Language_EN : lang) (w : World lang)
    : AppConfig lang :=
  match config_obj w with
  | Some c => c
  | None => AppConfig_default Language_EN
  end.

(** ** [async_greet] with the time written out *)

(** The event loop as the coroutine of [async_greet] sees it: the time in
    milliseconds from the call, and whether the callback that
    [asyncio.timeout] scheduled for its deadline has run (the block is then
    in the state EXPIRING and the task has been cancelled).  The loop has one
    thread: it runs callbacks only while the task is suspended, and a
    synchronous call keeps it for as long as the call takes. *)
Record Loop : Type := {
  loop_now : N;
  expiring : bool
}.

Definition call_start : Loop := {| loop_now := 0; expiring := false |}.

Definition Coro (lang A : Type) : Type :=
  Loop -> World lang -> (Result A * World lang) * Loop.

Module Aio.
Section Ops.
Context {lang : Type}.

Definition bind {A B} (c : Coro lang A) (k : A -> Coro lang B) : Coro lang B :=
  fun l w => match c l w with
             | ((Ok a, w'), l') => k a l' w'
             | ((Raise e, w'), l') => ((Raise e, w'), l')
             end.

(** A synchronous call that takes [ms] milliseconds.  The loop does not run
    in the meantime, so no callback does. *)
Definition blocking {A} (ms : N) (c : M lang A) : Coro lang A :=
  fun l w => (c w, {| loop_now := loop_now l + ms; expiring := expiring l |}).

(** [await asyncio.sleep(ms)] inside a timeout block with the given
    deadline.  The task is suspended; [resume_at] is the time at which the
    loop next runs it.  When the deadline has come by then, the callback of
    the block has run and cancelled the task, which is resumed with
    [CancelledError]. *)
Definition sleep (ms deadline resume_at : N) : Coro lang unit :=
  fun l w =>
    ((if deadline <=? resume_at then Raise CancelledError else Ok tt,
      observe w [Sleep ms]),
     {| loop_now := resume_at;
        expiring := (deadline <=? resume_at) || expiring l |}).

(** [async with asyncio.timeout(delay): body].  The deadline is [delay]
    after the block is entered.  On the way out the block cancels its
    callback, and raises [TimeoutError] in place of a [CancelledError] when
    the callback has run; it does not look at the clock. *)
Definition timeout {A} (delay : N) (body : N -> Coro lang A) : Coro lang A :=
  fun l w =>
    match body (loop_now l + delay)
               {| loop_now := loop_now l; expiring := false |} w with
    | ((Ok a, w'), l') => ((Ok a, w'), l')
    | ((Raise e, w'), l') =>
        if is_CancelledError e && expiring l'
        then ((Raise TimeoutError, w'), l')
        else ((Raise e, w'), l')
    end.

(** [try: body  except <classes>: handler], the handler a synchronous
    piece of code taken to use no time. *)
Definition try_except {A} (body : Coro lang A) (classes : exn -> bool)
    (handler : exn -> M lang A) : Coro lang A :=
  fun l w =>
    match body l w with
    | ((Ok a, w'), l') => ((Ok a, w'), l')
    | ((Raise e, w'), l') =>
        if classes e then (handler e w', l') else ((Raise e, w'), l')
    end.
End Ops.
End Aio.

Module OnClock.
Section OnClock.
Context {lang : Type} `{EqDecision lang}.
Variable Language_EN Language_JA : lang.
Variable get_translation : lang -> Result Translation.
Variable get_template : str -> Result str.

(** [async_greet], the call of [greet] taking [greet_ms] milliseconds. *)
Definition async_greet (resume_at greet_ms : N) (name : str) : Coro lang str :=
  Aio.try_except
    (Aio.timeout TIMEOUT_MS (fun deadline =>
       Aio.bind (Aio.sleep SLEEP_MS deadline resume_at) (fun _ =>
       Aio.blocking greet_ms
         (Main.greet Language_EN Language_JA get_translation get_template
            name))))
    is_Exception
    (fun e =>
       if is_TimeoutError e then
         let* _ := Py.log ERROR "Async greeting timed out for name: %s"
                     [ArgStr name] in
         Py.raise e
       else
         let* _ := Py.log ERROR "Async greeting error: %s" [ArgExn e] in
         Py.raise e).
End OnClock.
End OnClock.

(** ** The catalog and the registry, from their contracts *)

Module Catalog.
Section Catalog.
Context {lang : Type} `{EqDecision lang}.

(** The static table of the Translation Catalog: one entry per member of
    [Language]. *)
Variable TRANSLATIONS : list (lang * Translation).

Fixpoint find (l : lang) (table : list (lang * Translation))
    : option Translation :=
  match table with
  | [] => None
  | (k, t) :: rest => if bool_decide (k = l) then Some t else find l rest
  end.

(** The spec's [UnsupportedLanguageError]; [greet] documents and catches it
    as [ValueError]. *)
Definition UnsupportedLanguageError : exn :=
  ValueError (lit "Unsupported language").

(** Modelled from the spec: [get_translation] of [src.config.i18n], which
    is not under src/ (section 4.1: a pure lookup that fails with
    [UnsupportedLanguageError] when the value is no recognised member). *)
Definition get_translation (l : lang) : Result Translation :=
  match find l TRANSLATIONS with
  | Some t => Ok t
  | None => Raise UnsupportedLanguageError
  end.
End Catalog.
End Catalog.

Module Registry.
Section Registry.
(** The static registry of [TemplateManager], in insertion order. *)
Variable TEMPLATES : list (str * TemplateInfo).

Fixpoint find (style : str) (table : list (str * TemplateInfo))
    : option TemplateInfo :=
  match table with
  | [] => None
  | (k, info) :: rest => if str_eqb k style then Some info else find style rest
  end.

(** The spec's [TemplateNotFoundError]; [greet] documents and catches it as
    [KeyError]. *)
Definition TemplateNotFoundError (style : str) : exn := KeyError style.

(** Modelled from the spec: [TemplateManager.get_template] of
    [src.config.templates], which is not under src/ (section 4.2: fails
    with [TemplateNotFoundError] when the style is absent); the value is
    the entry's pattern, the object [greet] formats. *)
Definition get_template (style : str) : Result str :=
  match find style TEMPLATES with
  | Some info => Ok (pattern info)
  | None => Raise (TemplateNotFoundError style)
  end.

(** Modelled from the spec: [TemplateManager.list_templates] (section 4.2:
    a snapshot of the whole registry). *)
Definition list_templates : Result (list (str * TemplateInfo)) :=
  Ok TEMPLATES.

(** Modelled from the spec: [TemplateManager.get_by_category] (section 4.2:
    the entries whose category equals the argument, possibly none). *)
Definition get_by_category (cat : str) : Result (list (str * TemplateInfo)) :=
  Ok (List.filter (fun entry => str_eqb (category (snd entry)) cat) TEMPLATES).

(** Modelled from the spec: [TemplateManager.search_by_tags] (section 4.2:
    the entries with at least one tag in the query). *)
Definition search_by_tags (query : gset str)
    : Result (list (str * TemplateInfo)) :=
  Ok (List.filter
        (fun entry => existsb (fun t => bool_decide (t ∈ query))
                        (tags (snd entry)))
        TEMPLATES).
End Registry.
End Registry.

(** ** A small instance *)

(** Modelled from the spec: an instance of the tables with the members the
    spec names (EN and JA; DEFAULT, FORMAL and CASUAL).  It serves to run the
    functions on concrete inputs. *)
Module Sample.
Inductive Language : Type := EN | JA.

(** What a [language] field can hold: a member, or a raw value that was
    never converted. *)
Inductive LanguageValue : Type :=
| Member (l : Language)
| Raw (v : str).

#[export] Instance Language_eq_dec : EqDecision Language.
Proof. solve_decision. Defined.

#[export] Instance LanguageValue_eq_dec : EqDecision LanguageValue.
Proof. solve_decision. Defined.

Definition TRANSLATIONS : list (LanguageValue * Translation) :=
  [ (Member EN, {| greeting_prefix := lit "Hello"; greeting_suffix := lit "!" |});
    (Member JA, {| greeting_prefix := lit "Konnichiwa";
                   greeting_suffix := lit "san" |}) ].

Definition TEMPLATES : list (str * TemplateInfo) :=
  [ (lit "default",
     {| pattern := lit "{prefix}, {name}{suffix} {message}";
        category := lit "default";
        tags := [lit "basic"];
        description := lit "Default greeting" |});
    (lit "formal",
     {| pattern := lit "Dear {name}, {message}";
        category := lit "formal";
        tags := [lit "polite"; lit "business"];
        description := lit "Formal greeting" |});
    (lit "casual",
     {| pattern := lit "Hey {name}! {message}";
        category := lit "casual";
        tags := [lit "friendly"];
        description := lit "Casual greeting" |}) ].

Definition TemplateCategory_values : list str :=
  [lit "default"; lit "formal"; lit "casual"].

(** [repr] on a string without quotes, backslashes or control characters. *)
Definition repr (s : str) : str := lit "'" ++ s ++ lit "'".

Definition greet : str -> M LanguageValue str :=
  Main.greet (Member EN) (Member JA)
    (Catalog.get_translation TRANSLATIONS) (Registry.get_template TEMPLATES).

Definition async_greet : N -> str -> M LanguageValue str :=
  Main.async_greet (Member EN) (Member JA)
    (Catalog.get_translation TRANSLATIONS) (Registry.get_template TEMPLATES).

Definition list_templates : option str -> option str -> M LanguageValue unit :=
  Main.list_templates (Registry.get_by_category TEMPLATES)
    (Registry.search_by_tags TEMPLATES) (Registry.list_templates TEMPLATES)
    TemplateCategory_values repr.

Definition config (dbg : bool) (l : LanguageValue) (style : string)
    (message : option str) : AppConfig LanguageValue :=
  {| debug := dbg; language := l; template_style := lit style;
     custom_message := message; async_mode := false;
     log_level := lit "INFO" |}.

(** A fresh process: root logger at INFO (as [logging.basicConfig] leaves
    it), nothing observed yet. *)
Definition start (c : option (AppConfig LanguageValue)) : World LanguageValue :=
  {| root_level := INFO; config_obj := c; trace := [] |}.

(** Worlds the functions are run in below. *)
Definition taro_formal : World LanguageValue :=
  start (Some (config false (Member EN) "formal" None)).

Definition taro_ja : World LanguageValue :=
  start (Some (config false (Member JA) "default" (Some (lit "Welcome")))).

Definition sam_debug : World LanguageValue :=
  start (Some (config true (Member EN) "default" None)).

Definition raw_language : World LanguageValue :=
  start (Some (config false (Raw (lit "xx")) "nope" None)).

Definition missing_style : World LanguageValue :=
  start (Some (config false (Member EN) "nope" None)).
End Sample.

(** ** Replacement fields of a pattern *)

(** The names of the replacement fields of a pattern, left to right, when
    its braces are balanced and every field is a bare name; [None]
    otherwise. *)
Fixpoint fields_from (field : option str) (pattern : str) : option (list str) :=
  match pattern with
  | [] =>
      match field with
      | None => Some []
      | Some _ => None
      end
  | c :: rest =>
      match field with
      | None =>
          if c =? lbrace then
            match rest with
            | [] => None
            | c' :: rest' =>
                if c' =? lbrace then fields_from None rest'
                else fields_from (Some []) rest
            end
          else if c =? rbrace then
            match rest with
            | [] => None
            | c' :: rest' =>
                if c' =? rbrace then fields_from None rest' else None
            end
          else fields_from None rest
      | Some acc =>
          if c =? rbrace then
            match fields_from None rest with
            | Some fs => Some (rev acc :: fs)
            | None => None
            end
          else if (c =? lbrace) || field_operator c then None
          else fields_from (Some (c :: acc)) rest
      end
  end.

Definition placeholders (pattern : str) : option (list str) :=
  fields_from None pattern.

(** The reserved placeholder names (spec, section 3). *)
Definition RESERVED : list str :=
  [lit "name"; lit "message"; lit "prefix"; lit "suffix"].


(** ** The command line *)

(** The exceptions [main] can meet: those of the resolver ([Core]), and
    those of file access, JSON parsing, the interpreter and [sys.exit].
    [IOError] is [OSError]; [OtherError] is any further class deriving from
    [Exception]. *)
Inductive pyexn : Type :=
| Core (e : exn)
| IOError
| JSONDecodeError
| OtherError (description : str)
| UnboundLocalError (variable : str)
| SystemExit (code : Z)
| KeyboardInterrupt.

(** The [except] clauses of [main].  [TimeoutError] derives from [OSError]
    and [JSONDecodeError] from [ValueError].  [SystemExit],
    [KeyboardInterrupt] and [CancelledError] do not derive from [Exception];
    [Unmodelled] is no exception of the program and no clause takes it. *)
Definition cli_is_ValidationError (e : pyexn) : bool :=
  match e with Core (ValidationError _) => true | _ => false end.

Definition cli_is_IOError (e : pyexn) : bool :=
  match e with IOError | Core TimeoutError => true | _ => false end.

Definition cli_is_JSONDecodeError (e : pyexn) : bool :=
  match e with JSONDecodeError => true | _ => false end.

Definition cli_is_ValueError (e : pyexn) : bool :=
  match e with Core (ValueError _) | JSONDecodeError => true | _ => false end.

Definition cli_is_TimeoutError (e : pyexn) : bool :=
  match e with Core TimeoutError => true | _ => false end.

Definition cli_is_KeyboardInterrupt (e : pyexn) : bool :=
  match e with KeyboardInterrupt => true | _ => false end.

Definition cli_is_Exception (e : pyexn) : bool :=
  match e with
  | Core CancelledError | Core Unmodelled | SystemExit _ | KeyboardInterrupt => false
  | _ => true
  end.

Inductive Outcome (A : Type) : Type :=
| Done (a : A)
| Thrown (e : pyexn).
Arguments Done {A} a.
Arguments Thrown {A} e.

(** An argument of a log call of [main]. *)
Inductive CliArg : Type :=
| CliStr (s : str)
| CliExn (e : pyexn).

(** What [main] does that can be observed: the calls of the kinds above
    ([Inner]: those made inside [greet], [async_greet] and [list_templates],
    and [main]'s own [setLevel], [print] and registry calls), its log calls,
    and its calls on the parser and on [AppConfig]. *)
Inductive CliEvent (lang : Type) : Type :=
| Inner (e : Event lang)
| CliLog (level : Z) (fmt : str) (args : list CliArg)  (* logger.debug / info / error *)
| CliLogException (fmt : str)                          (* logger.exception *)
| ParseArgs                                            (* parser.parse_args() *)
| PrintHelp                                            (* parser.print_help() *)
| FromFile (path : str)                                (* AppConfig.from_file(path) *)
| ToFile (c : AppConfig lang) (path : str)             (* config.to_file(path) *)
| ValidateConfig (c : AppConfig lang)                  (* config.validate() *)
| DumpConfig (c : AppConfig lang)                      (* json.dumps(config.to_dict(), indent=2) *)
| MakeLanguage (raw : str).                            (* Language(raw) *)
Arguments Inner {lang} e.
Arguments CliLog {lang} level fmt args.
Arguments CliLogException {lang} fmt.
Arguments ParseArgs {lang}.
Arguments PrintHelp {lang}.
Arguments FromFile {lang} path.
Arguments ToFile {lang} c path.
Arguments ValidateConfig {lang} c.
Arguments DumpConfig {lang} c.
Arguments MakeLanguage {lang} raw.

(** The process as [main] sees it: the level of the root logger, the object
    its local variable [config] refers to ([None] while the variable is
    unbound), and what has been observed, oldest first. *)
Record Process (lang : Type) : Type := {
  proc_level : Z;
  proc_config : option (AppConfig lang);
  proc_events : list (CliEvent lang)
}.
Arguments proc_level {lang} _.
Arguments proc_config {lang} _.
Arguments proc_events {lang} _.
Arguments Build_Process {lang} _ _ _.

Definition Cmd (lang A : Type) : Type := Process lang -> Outcome A * Process lang.

(** The namespace [parse_args] returns, by subcommand.  [Unknown] is a
    command name the subparsers do not define. *)
Record GreetArgs : Type := {
  arg_name : str;
  arg_debug : bool;
  arg_message : option str;
  arg_config : option str;
  arg_style : str;
  arg_language : str;
  arg_async_mode : bool;
  arg_save_config : option str
}.

Inductive Args : Type :=
| NoCommand
| TemplatesArgs (category tags : option str)
| ConfigArgs (action : str) (file : option str)
| GreetCommand (a : GreetArgs)
| Unknown (command : str).

(** Attribute assignments on an [AppConfig]. *)
Definition set_debug {lang} (v : bool) (c : AppConfig lang) : AppConfig lang :=
  {| debug := v; language := language c; template_style := template_style c;
     custom_message := custom_message c; async_mode := async_mode c;
     log_level := log_level c |}.

Definition set_log_level {lang} (v : str) (c : AppConfig lang) : AppConfig lang :=
  {| debug := debug c; language := language c; template_style := template_style c;
     custom_message := custom_message c; async_mode := async_mode c;
     log_level := v |}.

Definition set_custom_message {lang} (v : option str) (c : AppConfig lang)
    : AppConfig lang :=
  {| debug := debug c; language := language c; template_style := template_style c;
     custom_message := v; async_mode := async_mode c;
     log_level := log_level c |}.

Definition set_template_style {lang} (v : str) (c : AppConfig lang)
    : AppConfig lang :=
  {| debug := debug c; language := language c; template_style := v;
     custom_message := custom_message c; async_mode := async_mode c;
     log_level := log_level c |}.

Definition set_async_mode {lang} (v : bool) (c : AppConfig lang) : AppConfig lang :=
  {| debug := debug c; language := language c; template_style := template_style c;
     custom_message := custom_message c; async_mode := v;
     log_level := log_level c |}.

Definition set_language {lang} (v : lang) (c : AppConfig lang) : AppConfig lang :=
  {| debug := debug c; language := v; template_style := template_style c;
     custom_message := custom_message c; async_mode := async_mode c;
     log_level := log_level c |}.

Module Cli.
Section Ops.
Context {lang : Type}.

Definition ret {A} (a : A) : Cmd lang A := fun p => (Done a, p).

Definition throw {A} (e : pyexn) : Cmd lang A := fun p => (Thrown e, p).

Definition bind {A B} (c : Cmd lang A) (k : A -> Cmd lang B) : Cmd lang B :=
  fun p => match c p with
           | (Done a, p') => k a p'
           | (Thrown e, p') => (Thrown e, p')
           end.

(** A pure call that may fail. *)
Definition lift {A} (o : Outcome A) : Cmd lang A := fun p => (o, p).

Definition lift_result {A} (r : Result A) : Cmd lang A :=
  fun p => (match r with Ok a => Done a | Raise e => Thrown (Core e) end, p).

Definition emit (e : CliEvent lang) : Cmd lang unit :=
  fun p => (Done tt, {| proc_level := proc_level p;
                        proc_config := proc_config p;
                        proc_events := proc_events p ++ [e] |}).

Definition log (level : Z) (fmt : str) (args : list CliArg) : Cmd lang unit :=
  emit (CliLog level fmt args).

Definition print (text : str) : Cmd lang unit := emit (Inner (PrintCall text)).

(** [logging.getLogger().setLevel(level)] *)
Definition setLevel (level : Z) : Cmd lang unit :=
  fun p => (Done tt, {| proc_level := level;
                        proc_config := proc_config p;
                        proc_events := proc_events p ++ [Inner (SetLevel level)] |}).

(** [sys.exit(code)] *)
Definition exit {A} (code : Z) : Cmd lang A := throw (SystemExit code).

(** A call of [main] starts with its local [config] unbound. *)
Definition enter : Cmd lang unit :=
  fun p => (Done tt, {| proc_level := proc_level p;
                        proc_config := None;
                        proc_events := proc_events p |}).

(** [config = value] *)
Definition bind_local (value : AppConfig lang) : Cmd lang unit :=
  fun p => (Done tt, {| proc_level := proc_level p;
                        proc_config := Some value;
                        proc_events := proc_events p |}).

(** A read of the local [config]. *)
Definition local : Cmd lang (AppConfig lang) :=
  fun p => match proc_config p with
           | Some c => (Done c, p)
           | None => (Thrown (UnboundLocalError (lit "config")), p)
           end.

(** [config.field = value], the value computed from the object. *)
Definition assign (update : AppConfig lang -> AppConfig lang) : Cmd lang unit :=
  bind local (fun c => bind_local (update c)).

(** A call of [greet], [async_greet] or [list_templates]: it runs on the
    root level and on the local [config] object, and what it does is
    appended to what was observed. *)
Definition call {A} (c : M lang A) : Cmd lang A :=
  fun p =>
    let '(r, w) := c {| root_level := proc_level p;
                        config_obj := proc_config p;
                        trace := [] |} in
    (match r with Ok a => Done a | Raise e => Thrown (Core e) end,
     {| proc_level := root_level w;
        proc_config := config_obj w;
        proc_events := proc_events p ++ List.map Inner (trace w) |}).

(** [try: body  except ...], the clauses given as one function that
    returns the handler of the first clause that takes the exception. *)
Definition try_ {A} (body : Cmd lang A) (clauses : pyexn -> option (Cmd lang A))
    : Cmd lang A :=
  fun p => match body p with
           | (Done a, p') => (Done a, p')
           | (Thrown e, p') =>
               match clauses e with
               | Some handler => handler p'
               | None => (Thrown e, p')
               end
           end.
End Ops.
End Cli.

Declare Scope cli_scope.
Delimit Scope cli_scope with cli.
Notation "'let+' x ':=' c 'in' k" := (Cli.bind c (fun x => k))
  (at level 10, x name, c at level 100, k at level 200) : cli_scope.

Local Open Scope cli_scope.

Module CommandLine.
Section CommandLine.
Context {lang : Type} `{EqDecision lang}.

Variable Language_EN Language_JA : lang.
Variable get_translation : lang -> Result Translation.
Variable get_template : str -> Result str.
Variable get_by_category : str -> Result (list (str * TemplateInfo)).
Variable search_by_tags : gset str -> Result (list (str * TemplateInfo)).
Variable TemplateManager_list_templates : Result (list (str * TemplateInfo)).
Variable TemplateCategory_values : list str.
Variable repr : str -> str.

(** [Language(raw)]: the member with that value, if there is one. *)
Variable Language_of_value : str -> option lang.

(** The methods of [AppConfig] that [main] calls, and the JSON text of
    [config.to_dict()]; each returns or raises. *)
Variable from_file : str -> Outcome (AppConfig lang).
Variable to_file : AppConfig lang -> str -> Outcome unit.
Variable validate : AppConfig lang -> Outcome unit.
Variable dumps : AppConfig lang -> Outcome str.

Definition Language (raw : str) : Outcome lang :=
  match Language_of_value raw with
  | Some l => Done l
  | None => Thrown (Core (ValueError (repr raw ++ lit " is not a valid Language")))
  end.

(** [AppConfig.from_file(path) if path else AppConfig()] *)
Definition load_config (path : option str) : Cmd lang (AppConfig lang) :=
  match path with
  | Some ((_ :: _) as path) =>
      let+ _ := Cli.emit (FromFile path) in Cli.lift (from_file path)
  | _ => Cli.ret (AppConfig_default Language_EN)
  end.

(** What [load_config] returns and what it makes observable. *)
Definition load_outcome (path : option str) : Outcome (AppConfig lang) :=
  match path with
  | Some ((_ :: _) as path) => from_file path
  | _ => Done (AppConfig_default Language_EN)
  end.

Definition load_events (path : option str) : list (CliEvent lang) :=
  match path with
  | Some ((_ :: _) as path) => [FromFile path]
  | _ => []
  end.

(** The object [config] after the six assignments of the greet branch, from
    the arguments [a], the loaded object [c] and the member [l] that
    [Language(args.language)] returned. *)
Definition cli_config (a : GreetArgs) (c : AppConfig lang) (l : lang)
    : AppConfig lang :=
  {| debug := arg_debug a || debug c;
     language := l;
     template_style := arg_style a;
     custom_message := if truthy_opt (arg_message a) then arg_message a
                       else custom_message c;
     async_mode := arg_async_mode a;
     log_level := if arg_debug a || debug c then lit "DEBUG" else lit "INFO" |}.

(** [for field, error in e.errors.items(): logger.error("  %s: %s", ...)] *)
Fixpoint log_field_errors (errors : list (str * str)) : Cmd lang unit :=
  match errors with
  | [] => Cli.ret tt
  | (field, error) :: rest =>
      let+ _ := Cli.log ERROR (lit "  %s: %s") [CliStr field; CliStr error] in
      log_field_errors rest
  end.

(** [for field, error in e.errors.items(): print(f"  {field}: {error}")] *)
Fixpoint print_field_errors (errors : list (str * str)) : Cmd lang unit :=
  match errors with
  | [] => Cli.ret tt
  | (field, error) :: rest =>
      let+ _ := Cli.print (lit "  " ++ field ++ lit ": " ++ error) in
      print_field_errors rest
  end.

(** The branch [args.command == "templates"]. *)
Definition main_templates (category tags : option str) : Cmd lang unit :=
  Cli.try_
    (Cli.call (Main.list_templates get_by_category search_by_tags
                 TemplateManager_list_templates TemplateCategory_values repr
                 category tags))
    (fun e =>
       if cli_is_ValueError e || cli_is_ValidationError e
       then Some (let+ _ := Cli.log ERROR (lit "Template listing error: %s")
                              [CliExn e] in
                  Cli.exit 1)
       else None).

(** The branch [args.command == "config"]. *)
Definition main_config (action : str) (file : option str) : Cmd lang unit :=
  let+ config :=
    Cli.try_ (load_config file)
      (fun e =>
         if cli_is_IOError e || cli_is_JSONDecodeError e
         then Some (let+ _ := Cli.log ERROR (lit "Error loading config file: %s")
                                [CliExn e] in
                    Cli.exit 1)
         else None) in
  let+ _ := Cli.bind_local config in
  if str_eqb action (lit "view") then
    let+ _ := Cli.emit (DumpConfig config) in
    let+ text := Cli.lift (dumps config) in
    Cli.print text
  else if str_eqb action (lit "validate") then
    Cli.try_
      (let+ _ := Cli.emit (ValidateConfig config) in
       let+ _ := Cli.lift (validate config) in
       Cli.print (lit "Configuration is valid"))
      (fun e =>
         match e with
         | Core (ValidationError errors) =>
             Some (let+ _ := Cli.print (lit "Configuration errors:") in
                   let+ _ := print_field_errors errors in
                   Cli.exit 1)
         | _ => None
         end)
  else if str_eqb action (lit "save") && truthy_opt file then
    let path := match file with Some path => path | None => [] end in
    Cli.try_
      (let+ _ := Cli.emit (ToFile config path) in
       let+ _ := Cli.lift (to_file config path) in
       Cli.print (lit "Configuration saved to " ++ path))
      (fun e =>
         if cli_is_IOError e
         then Some (let+ _ := Cli.log ERROR (lit "Error saving config file: %s")
                                [CliExn e] in
                    Cli.exit 1)
         else None)
  else Cli.ret tt.

(** The [except] clauses of the greet branch. *)
Definition main_greet_clauses (e : pyexn) : option (Cmd lang unit) :=
  match e with
  | Core (ValidationError errors) =>
      Some (let+ _ := Cli.log ERROR (lit "Validation error:") [] in
            let+ _ := log_field_errors errors in
            Cli.exit 1)
  | _ =>
      if cli_is_IOError e || cli_is_JSONDecodeError e
      then Some (let+ _ := Cli.log ERROR (lit "Config file error: %s")
                             [CliExn e] in
                 Cli.exit 1)
      else if cli_is_Exception e
      then Some (let+ _ := Cli.log ERROR (lit "Unexpected error: %s")
                             [CliExn e] in
                 let+ config := Cli.local in
                 let+ _ := (if debug config
                            then Cli.emit (CliLogException
                                             (lit "Detailed error information:"))
                            else Cli.ret tt) in
                 Cli.exit 1)
      else None
  end.

(** The greet branch from [if config.debug:] to [print(result)], [config]
    being the object after the six assignments. *)
Definition main_greet_run (a : GreetArgs) (resume_at : N)
    (config : AppConfig lang) : Cmd lang unit :=
  let+ _ := (if debug config then
               let+ _ := Cli.setLevel DEBUG in
               Cli.log DEBUG (lit "Debug mode enabled") []
             else Cli.ret tt) in
  let+ _ :=
    match arg_save_config a with
    | Some ((_ :: _) as path) =>
        Cli.try_
          (let+ _ := Cli.emit (ToFile config path) in
           let+ _ := Cli.lift (to_file config path) in
           Cli.log INFO (lit "Configuration saved to %s") [CliStr path])
          (fun e =>
             if cli_is_IOError e
             then Some (let+ _ := Cli.log ERROR (lit "Error saving config: %s")
                                    [CliExn e] in
                        Cli.exit 1)
             else None)
    | _ => Cli.ret tt
    end in
  let+ _ := Cli.emit (ValidateConfig config) in
  let+ _ := Cli.lift (validate config) in
  let+ result :=
    (if async_mode config then
       Cli.try_
         (Cli.call (Main.async_greet Language_EN Language_JA
                      get_translation get_template resume_at (arg_name a)))
         (fun e =>
            if cli_is_TimeoutError e
            then Some (let+ _ := Cli.log ERROR (lit "Async greeting timed out")
                                   [] in
                       Cli.exit 1)
            else if cli_is_Exception e
            then Some (let+ _ := Cli.log ERROR (lit "Async greeting error: %s")
                                   [CliExn e] in
                       Cli.exit 1)
            else None)
     else
       Cli.call (Main.greet Language_EN Language_JA
                   get_translation get_template (arg_name a))) in
  Cli.print result.

(** The branch [args.command == "greet"]. *)
Definition main_greet (a : GreetArgs) (resume_at : N) : Cmd lang unit :=
  Cli.try_
    (let+ config := load_config (arg_config a) in
     let+ _ := Cli.bind_local config in
     if negb (truthy (arg_name a)) || negb (truthy (strip (arg_name a))) then
       let+ _ := Cli.log ERROR (lit "Name cannot be empty") [] in
       Cli.exit 1
     else if (1000 <? length (arg_name a))%nat then
       let+ _ := Cli.log ERROR (lit "Name is too long (max 1000 characters)") [] in
       Cli.exit 1
     else
       let+ _ := Cli.assign (fun c => set_debug (arg_debug a || debug c) c) in
       let+ _ := Cli.assign (fun c =>
                   set_log_level (if debug c then lit "DEBUG" else lit "INFO") c) in
       let+ _ := Cli.assign (fun c =>
                   set_custom_message
                     (if truthy_opt (arg_message a) then arg_message a
                      else custom_message c) c) in
       let+ _ := Cli.assign (set_template_style (arg_style a)) in
       let+ _ := Cli.assign (set_async_mode (arg_async_mode a)) in
       let+ _ := Cli.emit (MakeLanguage (arg_language a)) in
       let+ l := Cli.lift (Language (arg_language a)) in
       let+ _ := Cli.assign (set_language l) in
       let+ config := Cli.local in
       main_greet_run a resume_at config)
    main_greet_clauses.

(** The dispatch on [args.command]. *)
Definition main_dispatch (args : Args) (resume_at : N) : Cmd lang unit :=
  match args with
  | NoCommand => Cli.emit PrintHelp
  | Unknown [] => Cli.emit PrintHelp
  | TemplatesArgs category tags => main_templates category tags
  | ConfigArgs action file => main_config action file
  | GreetCommand a => main_greet a resume_at
  | Unknown (_ :: _) => Cli.emit PrintHelp
  end.

(** The [except] clauses of [main] itself. *)
Definition main_clauses (e : pyexn) : option (Cmd lang unit) :=
  if cli_is_KeyboardInterrupt e
  then Some (let+ _ := Cli.log INFO ([10] ++ lit "Operation cancelled by user")
                         [] in
             Cli.exit 130)
  else if cli_is_Exception e
  then Some (let+ _ := Cli.log ERROR (lit "Critical error: %s") [CliExn e] in
             Cli.exit 1)
  else None.

(** [main()].  [parsed] is what [parser.parse_args()] does on the command
    line at hand: it returns a namespace or leaves through [sys.exit];
    [resume_at] is the time at which the event loop of [asyncio.run] resumes
    the coroutine after its sleep.  Building the parser asks the registry
    for the style names. *)
Definition main (parsed : Outcome Args) (resume_at : N) : Cmd lang unit :=
  Cli.try_
    (let+ _ := Cli.enter in
     let+ _ := Cli.emit (Inner ListTemplates) in
     let+ _ := Cli.lift_result TemplateManager_list_templates in
     let+ _ := Cli.emit ParseArgs in
     let+ args := Cli.lift parsed in
     main_dispatch args resume_at)
    main_clauses.
End CommandLine.
End CommandLine.

(** The world a call made by [main] starts in. *)
Definition world_of {lang : Type} (p : Process lang) : World lang :=
  {| root_level := proc_level p; config_obj := proc_config p; trace := [] |}.

(** The process after more has been observed. *)
Definition noted {lang : Type} (p : Process lang) (events : list (CliEvent lang))
    : Process lang :=
  {| proc_level := proc_level p;
     proc_config := proc_config p;
     proc_events := proc_events p ++ events |}.

(** The process once [main] has built its parser and parsed the command
    line. *)
Definition started {lang : Type} (p : Process lang) : Process lang :=
  {| proc_level := proc_level p;
     proc_config := None;
     proc_events := proc_events p ++ [Inner ListTemplates; ParseArgs] |}.

(** A command that, whenever it leaves through [sys.exit], does so with a
    status in [allowed]. *)
Definition exits_within {lang A : Type} (allowed : Z -> Prop) (c : Cmd lang A)
    : Prop :=
  forall (p : Process lang) (code : Z),
    fst (c p) = Thrown (SystemExit code) -> allowed code.

(** What the greet branch makes observable for the debug flag. *)
Definition cli_debug_events {lang : Type} (config : AppConfig lang)
    : list (CliEvent lang) :=
  if debug config
  then [Inner (SetLevel DEBUG); CliLog DEBUG (lit "Debug mode enabled") []]
  else [].

(** The log calls, and the printed lines, for the fields of a
    [ValidationError]. *)
Definition field_error_logs {lang : Type} (errors : list (str * str))
    : list (CliEvent lang) :=
  List.map (fun fe => CliLog ERROR (lit "  %s: %s")
                        [CliStr (fst fe); CliStr (snd fe)]) errors.

Definition field_error_lines {lang : Type} (errors : list (str * str))
    : list (CliEvent lang) :=
  List.map (fun fe => Inner (PrintCall (lit "  " ++ fst fe ++ lit ": " ++ snd fe)))
    errors.

(** Modelled from the spec: an [AppConfig] class and a [Language] lookup for
    the instance above (section 4.3: [validate] checks that the style is
    registered and reports it under "template_style"; loading fails with an
    I/O or a parse error).  It serves to run [main] on concrete inputs. *)
Module SampleCli.
Import Sample.

Definition Language_of_value (raw : str) : option LanguageValue :=
  if str_eqb raw (lit "en") then Some (Member EN)
  else if str_eqb raw (lit "ja") then Some (Member JA)
  else None.

(** Three files: one that loads, one that is no JSON, one with a field
    [AppConfig] does not have; every other path is missing. *)
Definition from_file (path : str) : Outcome (AppConfig LanguageValue) :=
  if str_eqb path (lit "team.json")
  then Done {| debug := false; language := Member JA;
               template_style := lit "formal";
               custom_message := Some (lit "Welcome"); async_mode := true;
               log_level := lit "INFO" |}
  else if str_eqb path (lit "broken.json") then Thrown JSONDecodeError
  else if str_eqb path (lit "extra.json")
  then Thrown (OtherError (lit "TypeError"))
  else Thrown IOError.

Definition to_file (c : AppConfig LanguageValue) (path : str) : Outcome unit :=
  if starts_with path (lit "/readonly/") then Thrown IOError else Done tt.

Definition validate (c : AppConfig LanguageValue) : Outcome unit :=
  match Registry.find (template_style c) TEMPLATES with
  | Some _ => Done tt
  | None =>
      Thrown (Core (ValidationError
                      [(lit "template_style", lit "Unknown template style")]))
  end.

Definition dumps (c : AppConfig LanguageValue) : Outcome str :=
  Done (lit "{template_style: " ++ template_style c ++ lit "}").

Definition main : Outcome Args -> N -> Cmd LanguageValue unit :=
  CommandLine.main (Member EN) (Member JA)
    (Catalog.get_translation TRANSLATIONS) (Registry.get_template TEMPLATES)
    (Registry.get_by_category TEMPLATES) (Registry.search_by_tags TEMPLATES)
    (Registry.list_templates TEMPLATES) TemplateCategory_values repr
    Language_of_value from_file to_file validate dumps.

(** A process that has just started: root logger at INFO. *)
Definition boot : Process LanguageValue :=
  {| proc_level := INFO; proc_config := None; proc_events := [] |}.

Definition greet_args (name : string) : GreetArgs :=
  {| arg_name := lit name; arg_debug := false; arg_message := None;
     arg_config := None; arg_style := lit "default"; arg_language := lit "en";
     arg_async_mode := false; arg_save_config := None |}.

(** Command lines the functions are run on below. *)
Definition greet_team (name : string) (style : string) (async : bool)
    (save : option str) : GreetArgs :=
  {| arg_name := lit name; arg_debug := true; arg_message := None;
     arg_config := Some (lit "team.json"); arg_style := lit style;
     arg_language := lit "en"; arg_async_mode := async;
     arg_save_config := save |}.

Definition greet_with_file (file : string) : GreetArgs :=
  {| arg_name := lit "Sam"; arg_debug := false; arg_message := None;
     arg_config := Some (lit file); arg_style := lit "default";
     arg_language := lit "en"; arg_async_mode := false;
     arg_save_config := None |}.

(** A second file system, whose "team.json" differs from the first in the
    style, the language, the async flag and the log level only. *)
Definition from_file_alt (path : str) : Outcome (AppConfig LanguageValue) :=
  if str_eqb path (lit "team.json")
  then Done {| debug := false; language := Member EN;
               template_style := lit "casual";
               custom_message := Some (lit "Welcome"); async_mode := false;
               log_level := lit "DEBUG" |}
  else Thrown IOError.

Definition main_alt : Outcome Args -> N -> Cmd LanguageValue unit :=
  CommandLine.main (Member EN) (Member JA)
    (Catalog.get_translation TRANSLATIONS) (Registry.get_template TEMPLATES)
    (Registry.get_by_category TEMPLATES) (Registry.search_by_tags TEMPLATES)
    (Registry.list_templates TEMPLATES) TemplateCategory_values repr
    Language_of_value from_file_alt to_file validate dumps.

(** A registry whose one pattern names a placeholder that [greet] does not
    bind. *)
Definition SHOUT_TEMPLATES : list (str * TemplateInfo) :=
  [ (lit "shout",
     {| pattern := lit "HEY {nickname}! {message}";
        category := lit "casual";
        tags := [lit "loud"];
        description := lit "Shouted greeting" |}) ].

Definition greet_shout : str -> M LanguageValue str :=
  Main.greet (Member EN) (Member JA)
    (Catalog.get_translation TRANSLATIONS) (Registry.get_template SHOUT_TEMPLATES).

Definition shout : World LanguageValue :=
  start (Some (config false (Member EN) "shout" None)).





End SampleCli.

(** ** What [greet] logs first *)

(** The calls [greet] makes for the debug flag, before any lookup. *)
Definition debug_events {lang : Type} (name : str) (cfg : AppConfig lang)
    : list (Event lang) :=
  if debug cfg
  then [SetLevel DEBUG;
        LogCall DEBUG (lit "Generating greeting for %s") [ArgStr name]]
  else [].

(** * Properties *)

(** ** Strings *)


Lemma truthy_true (s : str) : truthy s = true <-> s <> [].
Proof. destruct s; simpl; split; congruence. Qed.

Lemma truthy_false (s : str) : truthy s = false <-> s = [].
Proof. destruct s; simpl; split; congruence. Qed.

(** The test [not name or not name.strip()] holds exactly for the names that
    are empty once trimmed. *)
Lemma blank_test (name : str) :
  negb (truthy name) || negb (truthy (strip name)) = true <-> strip name = [].
Proof.
  split.
  - intros Hb. apply orb_true_iff in Hb as [Hb | Hb];
      apply negb_true_iff, truthy_false in Hb.
    + subst name. reflexivity.
    + exact Hb.
  - intros Hs. apply orb_true_iff. right.
    apply negb_true_iff, truthy_false. exact Hs.
Qed.

Lemma blank_test_false (name : str) :
  strip name <> [] -> negb (truthy name) || negb (truthy (strip name)) = false.
Proof.
  intros Hs. destruct (negb (truthy name) || negb (truthy (strip name))) eqn:Hb;
    [ | reflexivity ].
  apply blank_test in Hb. contradiction.
Qed.

Lemma lstrip_nil (s : str) : lstrip s = [] <-> forallb is_space s = true.
Proof.
  induction s as [| c s IH]; simpl; [ tauto | ].
  destruct (is_space c); simpl; [ exact IH | split; discriminate ].
Qed.

Lemma lstrip_head (s : str) (c : char) (rest : str) :
  lstrip s = c :: rest -> is_space c = false.
Proof.
  induction s as [| a s IH]; simpl; [ discriminate | ].
  destruct (is_space a) eqn:Ha; [ exact IH | ].
  intros Heq. injection Heq as <- _. exact Ha.
Qed.

Lemma forallb_rev_eq (f : char -> bool) (s : str) :
  forallb f (rev s) = forallb f s.
Proof.
  apply eq_true_iff_eq. rewrite !forallb_forall. split; intros Hall x Hin;
    apply Hall; [ apply -> in_rev | apply <- in_rev ]; exact Hin.
Qed.

(** Trimming leaves nothing exactly when every character is whitespace. *)
Lemma strip_nil_iff (s : str) : strip s = [] <-> forallb is_space s = true.
Proof.
  unfold strip, rstrip. split.
  - intros Hs. apply (f_equal (@rev char)) in Hs.
    rewrite rev_involutive in Hs. simpl in Hs.
    apply lstrip_nil in Hs. rewrite forallb_rev_eq in Hs.
    destruct (lstrip s) as [| c rest] eqn:Hl.
    + apply lstrip_nil, Hl.
    + apply lstrip_head in Hl. simpl in Hs. rewrite Hl in Hs. discriminate.
  - intros Hs. apply lstrip_nil in Hs. rewrite Hs. reflexivity.
Qed.





Lemma starts_with_spec (s prefix : str) :
  starts_with s prefix = true <-> exists after, s = prefix ++ after.
Proof.
  revert s. induction prefix as [| p ps IH]; intros s; simpl.
  - split; [ intros _; exists s; reflexivity | intros _; destruct s; reflexivity ].
  - destruct s as [| c cs].
    + split; [ discriminate | intros (after & Heq); discriminate ].
    + simpl. rewrite andb_true_iff, N.eqb_eq, IH. split.
      * intros (-> & after & ->). exists after. reflexivity.
      * intros (after & Heq). injection Heq as -> ->. split; [ reflexivity | ].
        exists after. reflexivity.
Qed.

(** The executable test agrees with the substring relation. *)
Lemma containsb_spec (hay needle : str) :
  containsb hay needle = true <-> contains hay needle.
Proof.
  unfold contains. induction hay as [| c rest IH].
  - change (containsb [] needle) with (starts_with [] needle || false).
    rewrite orb_false_r, starts_with_spec. split.
    + intros (after & Heq). exists [], after. exact Heq.
    + intros (before & after & Heq). symmetry in Heq.
      apply app_eq_nil in Heq as [-> Heq]. exists after. now rewrite Heq.
  - change (containsb (c :: rest) needle)
      with (starts_with (c :: rest) needle || containsb rest needle).
    rewrite orb_true_iff, starts_with_spec, IH. split.
    + intros [(after & Heq) | (before & after & Heq)].
      * exists [], after. exact Heq.
      * exists (c :: before), after. simpl. now rewrite Heq.
    + intros ([| b before] & after & Heq).
      * left. exists after. exact Heq.
      * right. simpl in Heq. injection Heq as _ Heq. exists before, after. exact Heq.
Qed.

(** ** [str.format] on well-formed patterns *)

(** Doubled braces are literal braces; a missing keyword is a [KeyError]
    and stops the scan before a later syntax error is met. *)
Example format_escapes :
  format (lit "{a}-{{x}}-{b}") [(lit "a", lit "1"); (lit "b", lit "2")]
  = Ok (lit "1-{x}-2").
Proof. vm_compute. reflexivity. Qed.

Example format_first_failure_wins :
  format (lit "{a}{zz}}") [(lit "a", lit "1")] = Raise (KeyError (lit "zz"))
  /\ format (lit "}{zz}") [(lit "a", lit "1")]
     = Raise (ValueError (lit "Single '}' encountered in format string")).
Proof. split; vm_compute; reflexivity. Qed.

Lemma field_value_found kwargs field v :
  kw_lookup field kwargs = Some v -> field_value kwargs field = Ok v.
Proof. intros Hk. unfold field_value. now rewrite Hk. Qed.




(** ** [greet] *)

Arguments format : simpl never.
Arguments lit : simpl never.

Ltac py_unfold :=
  unfold Py.asyncio_timeout, Py.asyncio_sleep, Py.bind, Py.try_except, Py.ret,
    Py.raise, Py.lift, Py.log, Py.emit, Py.setLevel, Py.read_config.

Ltac py_cases :=
  repeat match goal with
         | |- context [match ?r with Ok _ => _ | Raise _ => _ end] =>
             destruct r eqn:?; simpl
         | |- context [if ?b then _ else _] => destruct b eqn:?; simpl
         end.

Section GreetProperties.
Context {lang : Type} `{EqDecision lang}.
Variable Language_EN Language_JA : lang.
Variable get_translation : lang -> Result Translation.
Variable get_template : str -> Result str.

Local Abbreviation greet := (Main.greet Language_EN Language_JA get_translation get_template).
Local Abbreviation async_greet :=
  (Main.async_greet Language_EN Language_JA get_translation get_template).
Local Abbreviation cfg_of := (effective_config Language_EN).
Local Abbreviation chosen_pattern := (Main.chosen_pattern Language_JA).

(** The outcome of [greet] on a name that passes validation: the first
    failing step decides, in the order translation, template, format. *)
Lemma greet_outcome (name : str) (w : World lang) :
  strip name <> [] -> (length name <= 1000)%nat ->
  fst (greet name w) =
    match get_translation (language (cfg_of w)) with
    | Raise e => Raise e
    | Ok tr =>
        match get_template (template_style (cfg_of w)) with
        | Raise e => Raise e
        | Ok pat =>
            format (chosen_pattern (cfg_of w) pat)
              (greet_kwargs name (cfg_of w) tr)
        end
    end.
Proof.
  intros Hs Hl. unfold Main.greet.
  rewrite (blank_test_false _ Hs), (proj2 (Nat.ltb_ge _ _) Hl).
  py_unfold. unfold effective_config, Main.chosen_pattern. simpl.
  generalize (match config_obj w with
              | Some c => c
              | None => AppConfig_default Language_EN
              end).
  intros cfg. py_cases; try reflexivity; try congruence.
Qed.

(** The two written-out patterns, formatted. *)
Lemma format_default_latin (name : str) (cfg : AppConfig lang) (tr : Translation) :
  format DEFAULT_PATTERN_LATIN (greet_kwargs name cfg tr)
  = Ok (greeting_prefix tr ++ lit ", " ++ name ++ lit "! "
        ++ or_empty (custom_message cfg)).
Proof.
  rewrite <- (app_nil_r (or_empty (custom_message cfg))).
  vm_compute. reflexivity.
Qed.

Lemma format_default_ja (name : str) (cfg : AppConfig lang) (tr : Translation) :
  format DEFAULT_PATTERN_JA (greet_kwargs name cfg tr)
  = Ok (greeting_prefix tr ++ [227; 8364] ++ name ++ lit "! "
        ++ or_empty (custom_message cfg)).
Proof.
  rewrite <- (app_nil_r (or_empty (custom_message cfg))).
  vm_compute. reflexivity.
Qed.

(** What a call leaves behind: the caller's object is as it was, the root
    level is DEBUG exactly when the name passed validation with the debug
    flag set, and the trace has only grown. *)
Lemma greet_world (name : str) (w : World lang) :
  config_obj (snd (greet name w)) = config_obj w
  /\ root_level (snd (greet name w)) =
       (if negb (negb (truthy name) || negb (truthy (strip name)))
           && negb (1000 <? length name)%nat
           && debug (cfg_of w)
        then DEBUG else root_level w)
  /\ exists events,
       trace (snd (greet name w)) = trace w ++ events
       /\ (debug (cfg_of w) = false ->
           forall level, SetLevel level ∉ events).
Proof.
  unfold Main.greet, effective_config.
  destruct (negb (truthy name) || negb (truthy (strip name))); simpl.
  { repeat split. exists []. rewrite app_nil_r. split; [ reflexivity | ].
    intros _ level Hin. inversion Hin. }
  destruct (1000 <? length name)%nat; simpl.
  { repeat split. exists []. rewrite app_nil_r. split; [ reflexivity | ].
    intros _ level Hin. inversion Hin. }
  py_unfold. simpl.
  generalize (match config_obj w with
              | Some c => c
              | None => AppConfig_default Language_EN
              end).
  intros cfg. py_cases; (split; [ reflexivity | split; [ reflexivity | ] ]);
    rewrite <- ?app_assoc; simpl;
    (eexists; split; [ reflexivity | ]);
    intros Hd level Hin; try discriminate;
    repeat (apply elem_of_cons in Hin as [Hin | Hin]; [ discriminate | ]);
    inversion Hin.
Qed.

(** A name that passes validation reaches the translation lookup. *)
Lemma greet_reaches_lookup (name : str) (w : World lang) :
  strip name <> [] -> (length name <= 1000)%nat ->
  exists before after,
    trace (snd (greet name w)) =
      trace w ++ before ++ GetTranslation (language (cfg_of w)) :: after.
Proof.
  intros Hs Hl. unfold Main.greet, effective_config.
  rewrite (blank_test_false _ Hs), (proj2 (Nat.ltb_ge _ _) Hl).
  py_unfold. simpl.
  generalize (match config_obj w with
              | Some c => c
              | None => AppConfig_default Language_EN
              end).
  intros cfg. py_cases; rewrite <- ?app_assoc; simpl;
    first [ (exists []; eexists; reflexivity)
          | (eexists [_; _]; eexists; reflexivity) ].
Qed.


(** C2: with [template_style == "default"] the pattern stored in the
    registry plays no part: [greet] formats the written-out pattern
    "{prefix}" U+00E3 U+20AC "{name}! {message}" when the language is JA and
    "{prefix}, {name}! {message}" for every other language, and neither
    pattern contains the [{suffix}] placeholder. *)
Theorem greet_default_style_uses_written_pattern (name : str) (w : World lang)
    (tr : Translation) (pat : str) :
  strip name <> [] -> (length name <= 1000)%nat ->
  template_style (cfg_of w) = lit "default" ->
  get_translation (language (cfg_of w)) = Ok tr ->
  get_template (lit "default") = Ok pat ->
  let written :=
    if bool_decide (language (cfg_of w) = Language_JA)
    then lit "{prefix}" ++ [227; 8364] ++ lit "{name}! {message}"
    else lit "{prefix}, {name}! {message}" in
  let separator :=
    if bool_decide (language (cfg_of w) = Language_JA)
    then [227; 8364] else lit ", " in
  fst (greet name w) = format written (greet_kwargs name (cfg_of w) tr)
  /\ fst (greet name w) =
       Ok (greeting_prefix tr ++ separator ++ name ++ lit "! "
           ++ or_empty (custom_message (cfg_of w)))
  /\ ~ contains written (lit "{suffix}").
Proof.
  intros Hs Hl Hstyle Htr Hpat written separator.
  rewrite (greet_outcome name w Hs Hl), Htr, Hstyle, Hpat.
  unfold Main.chosen_pattern, str_eqb. rewrite Hstyle.
  rewrite bool_decide_eq_true_2 by reflexivity.
  subst written separator.
  destruct (bool_decide (language (cfg_of w) = Language_JA)).
  - split; [ reflexivity | ]. split; [ apply format_default_ja | ].
    intros Hc. apply containsb_spec in Hc. vm_compute in Hc. discriminate.
  - split; [ reflexivity | ]. split; [ apply format_default_latin | ].
    intros Hc. apply containsb_spec in Hc. vm_compute in Hc. discriminate.
Qed.

(** C3: a name that is empty, whitespace-only or longer than 1000
    characters makes [greet] fail with a [ValidationError] keyed "name",
    whatever the configuration, with no lookup made and the world left as
    it was; a name of exactly 1000 characters is not rejected as too long,
    and when it is not blank it reaches the translation lookup. *)
Theorem greet_rejects_invalid_name (name : str) (w : World lang) :
  (name = [] \/ forallb is_space name = true \/ (1000 < length name)%nat ->
   exists problem,
     greet name w = (Raise (ValidationError [(lit "name", problem)]), w))
  /\ (length name = 1000%nat ->
      greet name w <>
        (Raise (ValidationError
                  [(lit "name", lit "Name is too long (max 1000 characters)")]),
         w))
  /\ (strip name <> [] -> length name = 1000%nat ->
      exists before after,
        trace (snd (greet name w)) =
          trace w ++ before ++ GetTranslation (language (cfg_of w)) :: after).
Proof.
  split; [ | split ].
  - intros Hbad. unfold Main.greet.
    destruct (negb (truthy name) || negb (truthy (strip name))) eqn:Hblank.
    + eexists. reflexivity.
    + destruct Hbad as [Hempty | [Hspace | Hlong]].
      * subst name. discriminate.
      * apply strip_nil_iff, blank_test in Hspace. congruence.
      * rewrite (proj2 (Nat.ltb_lt _ _) Hlong). eexists. reflexivity.
  - intros Hl Hrun.
    destruct (negb (truthy name) || negb (truthy (strip name))) eqn:Hblank.
    + unfold Main.greet in Hrun. rewrite Hblank in Hrun.
      vm_compute in Hrun. discriminate.
    + assert (Hs : strip name <> []).
      { intros Hs. apply blank_test in Hs. congruence. }
      destruct (greet_reaches_lookup name w Hs) as (before & after & Htrace);
        [ lia | ].
      rewrite Hrun in Htrace. simpl in Htrace.
      apply (f_equal (@length _)) in Htrace.
      rewrite !length_app in Htrace. simpl in Htrace. lia.
  - intros Hs Hl. apply greet_reaches_lookup; [ exact Hs | lia ].
Qed.

(** Whatever the lookups are: a failure of the translation lookup, and
    after it of the template lookup, leaves [greet] as the very exception
    that was raised. *)
Lemma greet_propagates_lookup_errors (name : str) (w : World lang) (e : exn) :
  strip name <> [] -> (length name <= 1000)%nat ->
  (get_translation (language (cfg_of w)) = Raise e ->
   fst (greet name w) = Raise e)
  /\ (forall tr,
        get_translation (language (cfg_of w)) = Ok tr ->
        get_template (template_style (cfg_of w)) = Raise e ->
        fst (greet name w) = Raise e).
Proof.
  intros Hs Hl. rewrite (greet_outcome name w Hs Hl). split.
  - intros ->. reflexivity.
  - intros tr -> ->. reflexivity.
Qed.

(** C9, as the code has it: with the debug flag set and a name that passes
    validation, the root logger is at DEBUG when [greet] returns or fails,
    whatever its level was; it is not put back.  With the flag unset the
    level is never written. *)
Theorem greet_debug_sets_root_level (name : str) (w : World lang) :
  (debug (cfg_of w) = true ->
   strip name <> [] -> (length name <= 1000)%nat ->
   root_level (snd (greet name w)) = DEBUG)
  /\ (debug (cfg_of w) = false ->
      root_level (snd (greet name w)) = root_level w
      /\ exists events,
           trace (snd (greet name w)) = trace w ++ events
           /\ forall level, SetLevel level ∉ events).
Proof.
  destruct (greet_world name w) as (_ & Hlevel & events & Htrace & Hquiet).
  split.
  - intros Hd Hs Hl. rewrite Hlevel, Hd.
    rewrite (blank_test_false _ Hs), (proj2 (Nat.ltb_ge _ _) Hl). reflexivity.
  - intros Hd. split.
    + rewrite Hlevel, Hd, andb_false_r. reflexivity.
    + exists events. split; [ exact Htrace | exact (Hquiet Hd) ].
Qed.

(** C10: [greet] never writes to the [AppConfig] it is given: when it
    returns or fails, the caller's object holds what it held at entry. *)
Theorem greet_leaves_config_unchanged (name : str) (w : World lang) :
  config_obj (snd (greet name w)) = config_obj w.
Proof. apply greet_world. Qed.

(** ** [async_greet] *)

(** The outcome of [greet] is a function of the name and of the caller's
    object. *)
Lemma greet_outcome_frame (name : str) (w1 w2 : World lang) :
  config_obj w1 = config_obj w2 ->
  fst (greet name w1) = fst (greet name w2).
Proof.
  intros Hc.
  destruct (negb (truthy name) || negb (truthy (strip name))) eqn:Hblank.
  { unfold Main.greet. rewrite Hblank. reflexivity. }
  destruct (1000 <? length name)%nat eqn:Hlong.
  { unfold Main.greet. rewrite Hblank, Hlong. reflexivity. }
  assert (Hs : strip name <> []).
  { intros Hs. apply blank_test in Hs. congruence. }
  apply Nat.ltb_ge in Hlong.
  rewrite !greet_outcome by assumption.
  unfold effective_config. rewrite Hc. reflexivity.
Qed.

(** When the deadline does not come first, [async_greet] is [greet] run
    after the sleep, followed by one log call if it failed. *)
Lemma async_greet_in_time (resume_at : N) (name : str) (w : World lang) :
  resume_at <= TIMEOUT_MS ->
  let w1 := observe w [Sleep SLEEP_MS] in
  fst (async_greet resume_at name w) = fst (greet name w1)
  /\ exists events,
       snd (async_greet resume_at name w)
       = observe (snd (greet name w1)) events
       /\ forall level, SetLevel level ∉ events.
Proof.
  intros Hw w1. unfold Main.async_greet. py_unfold. simpl.
  rewrite (proj2 (N.ltb_ge _ _) Hw). fold w1.
  assert (Hobs : forall w' : World lang, w' = observe w' []).
  { intros [l c t]. unfold observe. simpl. now rewrite app_nil_r. }
  destruct (greet name w1) as [[out | e] w2]; simpl.
  - split; [ reflexivity | ]. exists []. split; [ apply Hobs | ].
    intros level Hin. inversion Hin.
  - rewrite andb_false_r. simpl.
    destruct e; simpl; (split; [ reflexivity | ]);
      first [ eexists; split; [ reflexivity | ];
              intros level Hin; apply elem_of_cons in Hin as [Hin | Hin];
              [ discriminate | inversion Hin ]
            | exists []; split; [ apply Hobs | ];
              intros level Hin; inversion Hin ].
Qed.

(** C4: whenever [async_greet] completes without timing out, it returns
    the string [greet] returns and fails with the error [greet] fails
    with; the root log level and the caller's config end as [greet] leaves
    them. *)
Theorem async_greet_agrees_with_greet (resume_at : N) (name : str)
    (w : World lang) :
  resume_at <= TIMEOUT_MS ->
  fst (async_greet resume_at name w) = fst (greet name w)
  /\ root_level (snd (async_greet resume_at name w))
     = root_level (snd (greet name w))
  /\ config_obj (snd (async_greet resume_at name w))
     = config_obj (snd (greet name w)).
Proof.
  intros Hw.
  destruct (async_greet_in_time resume_at name w Hw)
    as (Hout & events & Hworld & _).
  set (w1 := observe w [Sleep SLEEP_MS]) in *.
  destruct (greet_world name w) as (Hc & Hl & _).
  destruct (greet_world name w1) as (Hc1 & Hl1 & _).
  split; [ | split ].
  - rewrite Hout. apply greet_outcome_frame. reflexivity.
  - rewrite Hworld. simpl. rewrite Hl1, Hl. reflexivity.
  - rewrite Hworld. simpl. rewrite Hc1, Hc. reflexivity.
Qed.

(** On the clock and off it [async_greet] is one function, the instant of
    the deadline apart: the time the call of [greet] takes plays no part in
    the outcome. *)
Lemma async_greet_on_clock_agrees (resume_at greet_ms : N) (name : str)
    (w : World lang) :
  resume_at <> TIMEOUT_MS ->
  fst (OnClock.async_greet Language_EN Language_JA get_translation
         get_template resume_at greet_ms name call_start w)
  = async_greet resume_at name w.
Proof.
  intros Htie.
  unfold OnClock.async_greet, Main.async_greet, Aio.try_except, Aio.timeout,
    Aio.bind, Aio.sleep, Aio.blocking, call_start.
  py_unfold. cbn [loop_now expiring fst snd]. rewrite N.add_0_l.
  destruct (N.leb_spec TIMEOUT_MS resume_at) as [Hle | Hlt].
  - assert (Hlate : TIMEOUT_MS < resume_at) by lia.
    rewrite (proj2 (N.ltb_lt _ _) Hlate). reflexivity.
  - rewrite (proj2 (N.ltb_ge _ _) (N.lt_le_incl _ _ Hlt)).
    cbn [orb loop_now expiring fst snd].
    destruct (greet name (observe w [Sleep SLEEP_MS])) as [[out | e] w'];
      cbn [fst snd]; [ reflexivity | ].
    rewrite !andb_false_r. destruct (is_Exception e); reflexivity.
Qed.

End GreetProperties.

(** ** [list_templates] *)

Section ListProperties.
Context {lang : Type}.
Variable get_by_category : str -> Result (list (str * TemplateInfo)).
Variable search_by_tags : gset str -> Result (list (str * TemplateInfo)).
Variable TemplateManager_list_templates : Result (list (str * TemplateInfo)).
Variable TemplateCategory_values : list str.
Variable repr : str -> str.

Local Abbreviation list_templates :=
  (Main.list_templates (lang := lang) get_by_category search_by_tags
     TemplateManager_list_templates TemplateCategory_values repr).

Lemma all_tags_nonempty (pieces : list str) :
  forallb (fun t => truthy (strip t)) pieces = true ->
  forall t, t ∈ pieces -> strip t <> [].
Proof.
  rewrite forallb_forall. intros Hall t Hin.
  apply truthy_true, Hall, list_elem_of_In, Hin.
Qed.

(** With a category given, the tags are never looked at. *)
Lemma list_templates_category_first (category : str) (tags : option str)
    (w : World lang) :
  category <> [] ->
  list_templates (Some category) tags w = list_templates (Some category) None w.
Proof.
  intros Hc. destruct category as [| c cs]; [ contradiction | reflexivity ].
Qed.

(** C6, as the code has it: when no category is given (it is [None] or
    empty) and the tags string is not empty, more than 10 comma-separated
    tags, or a tag that is empty after trimming, make [list_templates]
    fail with a [ValidationError] keyed "tags"; the only call made is the
    error log, so no tag search took place. *)
Theorem list_templates_rejects_malformed_tags (category : option str)
    (tags : str) (w : World lang) :
  truthy_opt category = false ->
  tags <> [] ->
  ((10 < length (split COMMA tags))%nat
   \/ exists t, t ∈ split COMMA tags /\ strip t = []) ->
  exists problem,
    list_templates category (Some tags) w =
      (Raise (ValidationError [(lit "tags", problem)]),
       observe w [LogCall ERROR (lit "Error listing templates: %s")
                    [ArgExn (ValidationError [(lit "tags", problem)])]]).
Proof.
  intros Hcat Htags Hbad.
  assert (Hgo : exists problem,
             list_templates None (Some tags) w =
               (Raise (ValidationError [(lit "tags", problem)]),
                observe w [LogCall ERROR (lit "Error listing templates: %s")
                             [ArgExn (ValidationError [(lit "tags", problem)])]])).
  { destruct tags as [| c cs]; [ contradiction | ].
    unfold Main.list_templates. py_unfold.
    remember (split COMMA (c :: cs)) as pieces eqn:Hpieces.
    destruct (forallb (fun t => truthy (strip t)) pieces) eqn:Hall; simpl.
    - destruct Hbad as [Hmany | (t & Hin & Hempty)].
      + rewrite (proj2 (Nat.ltb_lt _ _) Hmany). simpl.
        eexists. reflexivity.
      + exfalso. exact (all_tags_nonempty _ Hall t Hin Hempty).
    - eexists. reflexivity. }
  destruct category as [[| c cs] |]; [ exact Hgo | discriminate | exact Hgo ].
Qed.

(** C7, as the code has it: a non-empty category string outside the
    enumerated set makes [list_templates] fail with the [ValueError] of the
    enum lookup; the lookup is the first call made and no filtering
    follows it, and the full list of valid categories goes to the caller
    in an INFO log record written before the error leaves. *)
Theorem list_templates_rejects_unknown_category (category : str)
    (tags : option str) (w : World lang) :
  category <> [] ->
  category ∉ TemplateCategory_values ->
  let e := ValueError (repr category ++ lit " is not a valid TemplateCategory") in
  list_templates (Some category) tags w =
    (Raise e,
     observe w [MakeCategory category;
                LogCall ERROR (lit "Invalid category: %s") [ArgStr category];
                LogCall INFO (lit "Valid categories: %s")
                  [ArgList TemplateCategory_values];
                LogCall ERROR (lit "Error listing templates: %s") [ArgExn e]]).
Proof.
  intros Hne Hout e. destruct category as [| c cs]; [ contradiction | ].
  unfold Main.list_templates, Main.TemplateCategory. py_unfold. simpl.
  rewrite bool_decide_eq_false_2 by exact Hout. simpl.
  unfold observe. simpl. rewrite <- !app_assoc. reflexivity.
Qed.
End ListProperties.

(** ** Lookup failures, with the catalog and the registry of the spec *)

Section LookupErrors.
Context {lang : Type} `{EqDecision lang}.
Variable Language_EN Language_JA : lang.
Variable TRANSLATIONS : list (lang * Translation).
Variable TEMPLATES : list (str * TemplateInfo).

Local Abbreviation greet :=
  (Main.greet Language_EN Language_JA
     (Catalog.get_translation TRANSLATIONS) (Registry.get_template TEMPLATES)).
Local Abbreviation cfg_of := (effective_config Language_EN).

(** C5: a style absent from the registry makes [get_template] fail with
    [TemplateNotFoundError], a value outside the catalog makes
    [get_translation] fail with [UnsupportedLanguageError], and [greet]
    hands either error to its caller as it was raised. *)
Theorem lookup_errors_reach_the_caller (name : str) (w : World lang) :
  strip name <> [] -> (length name <= 1000)%nat ->
  (forall style,
     Registry.find style TEMPLATES = None ->
     Registry.get_template TEMPLATES style
     = Raise (Registry.TemplateNotFoundError style))
  /\ (forall l,
        Catalog.find l TRANSLATIONS = None ->
        Catalog.get_translation TRANSLATIONS l
        = Raise Catalog.UnsupportedLanguageError)
  /\ (Catalog.find (language (cfg_of w)) TRANSLATIONS = None ->
      fst (greet name w) = Raise Catalog.UnsupportedLanguageError)
  /\ (Catalog.find (language (cfg_of w)) TRANSLATIONS <> None ->
      Registry.find (template_style (cfg_of w)) TEMPLATES = None ->
      fst (greet name w)
      = Raise (Registry.TemplateNotFoundError (template_style (cfg_of w)))).
Proof.
  intros Hs Hl.
  assert (Htpl : forall style,
             Registry.find style TEMPLATES = None ->
             Registry.get_template TEMPLATES style
             = Raise (Registry.TemplateNotFoundError style)).
  { intros style Hnone. unfold Registry.get_template. now rewrite Hnone. }
  assert (Htr : forall l,
             Catalog.find l TRANSLATIONS = None ->
             Catalog.get_translation TRANSLATIONS l
             = Raise Catalog.UnsupportedLanguageError).
  { intros l Hnone. unfold Catalog.get_translation. now rewrite Hnone. }
  split; [ exact Htpl | ]. split; [ exact Htr | ]. split.
  - intros Hnone.
    apply (greet_propagates_lookup_errors _ _ _ _ name w _ Hs Hl).
    apply Htr, Hnone.
  - intros Hsome Hnone.
    destruct (Catalog.find (language (cfg_of w)) TRANSLATIONS) as [tr |] eqn:Hfind;
      [ | contradiction ].
    apply (proj2 (greet_propagates_lookup_errors _ _ _ _ name w _ Hs Hl) tr).
    + unfold Catalog.get_translation. now rewrite Hfind.
    + apply Htpl, Hnone.
Qed.
End LookupErrors.

(** ** The theorems at concrete inputs *)

Module Runs.
Import Sample.


Lemma greet_default_style_run :
  fst (Sample.greet (lit "Taro") taro_ja)
  = Ok (lit "Konnichiwa" ++ [227; 8364] ++ lit "Taro! Welcome").
Proof.
  assert (Hs : strip (lit "Taro") <> []) by (vm_compute; discriminate).
  assert (Hl : (length (lit "Taro") <= 1000)%nat) by (vm_compute; lia).
  exact (proj1 (proj2
           (greet_default_style_uses_written_pattern (Member EN) (Member JA)
              (Catalog.get_translation TRANSLATIONS)
              (Registry.get_template TEMPLATES)
              (lit "Taro") taro_ja
              {| greeting_prefix := lit "Konnichiwa";
                 greeting_suffix := lit "san" |}
              (lit "{prefix}, {name}{suffix} {message}")
              Hs Hl eq_refl eq_refl eq_refl))).
Defined.

Lemma greet_rejects_invalid_name_run :
  (exists problem,
     Sample.greet (lit "   ") raw_language
     = (Raise (ValidationError [(lit "name", problem)]), raw_language))
  /\ (exists problem,
        Sample.greet (repeat 97 1001) raw_language
        = (Raise (ValidationError [(lit "name", problem)]), raw_language))
  /\ Sample.greet (repeat 97 1000) raw_language
     <> (Raise (ValidationError
                  [(lit "name", lit "Name is too long (max 1000 characters)")]),
         raw_language)
  /\ exists before after,
       trace (snd (Sample.greet (repeat 97 1000) raw_language))
       = trace raw_language ++ before ++ GetTranslation (Raw (lit "xx")) :: after.
Proof.
  split; [ | split; [ | split ] ].
  - apply (greet_rejects_invalid_name (Member EN) (Member JA)
             (Catalog.get_translation TRANSLATIONS)
             (Registry.get_template TEMPLATES) (lit "   ") raw_language).
    right. left. vm_compute. reflexivity.
  - apply (greet_rejects_invalid_name (Member EN) (Member JA)
             (Catalog.get_translation TRANSLATIONS)
             (Registry.get_template TEMPLATES) (repeat 97 1001) raw_language).
    right. right. rewrite repeat_length. lia.
  - apply (greet_rejects_invalid_name (Member EN) (Member JA)
             (Catalog.get_translation TRANSLATIONS)
             (Registry.get_template TEMPLATES) (repeat 97 1000) raw_language).
    apply repeat_length.
  - apply (greet_rejects_invalid_name (Member EN) (Member JA)
             (Catalog.get_translation TRANSLATIONS)
             (Registry.get_template TEMPLATES) (repeat 97 1000) raw_language).
    + vm_compute. discriminate.
    + apply repeat_length.
Defined.

Lemma async_greet_agrees_with_greet_run :
  fst (Sample.async_greet 100 (lit "Sam") sam_debug)
  = fst (Sample.greet (lit "Sam") sam_debug)
  /\ root_level (snd (Sample.async_greet 100 (lit "Sam") sam_debug))
     = root_level (snd (Sample.greet (lit "Sam") sam_debug))
  /\ config_obj (snd (Sample.async_greet 100 (lit "Sam") sam_debug))
     = config_obj (snd (Sample.greet (lit "Sam") sam_debug)).
Proof.
  apply (async_greet_agrees_with_greet (Member EN) (Member JA)
           (Catalog.get_translation TRANSLATIONS)
           (Registry.get_template TEMPLATES) 100 (lit "Sam") sam_debug).
  vm_compute. discriminate.
Defined.


Lemma lookup_errors_reach_the_caller_run :
  fst (Sample.greet (lit "Sam") raw_language)
  = Raise Catalog.UnsupportedLanguageError
  /\ fst (Sample.greet (lit "Sam") missing_style)
     = Raise (Registry.TemplateNotFoundError (lit "nope")).
Proof.
  assert (Hs : strip (lit "Sam") <> []) by (vm_compute; discriminate).
  assert (Hl : (length (lit "Sam") <= 1000)%nat) by (vm_compute; lia).
  split.
  - apply (lookup_errors_reach_the_caller (Member EN) (Member JA)
             TRANSLATIONS TEMPLATES (lit "Sam") raw_language Hs Hl).
    vm_compute. reflexivity.
  - apply (lookup_errors_reach_the_caller (Member EN) (Member JA)
             TRANSLATIONS TEMPLATES (lit "Sam") missing_style Hs Hl).
    + vm_compute. discriminate.
    + vm_compute. reflexivity.
Defined.

Lemma list_templates_rejects_malformed_tags_run :
  (exists problem,
     fst (Sample.list_templates None (Some (lit "a,,b")) (start None))
     = Raise (ValidationError [(lit "tags", problem)]))
  /\ exists problem,
       fst (Sample.list_templates (Some []) (Some (lit "a,b,c,d,e,f,g,h,i,j,k"))
              (start None))
       = Raise (ValidationError [(lit "tags", problem)]).
Proof.
  split.
  - destruct (list_templates_rejects_malformed_tags (lang := LanguageValue)
                (Registry.get_by_category TEMPLATES)
                (Registry.search_by_tags TEMPLATES)
                (Registry.list_templates TEMPLATES)
                TemplateCategory_values repr
                None (lit "a,,b") (start None)) as [problem Hrun].
    + reflexivity.
    + vm_compute. discriminate.
    + right. exists []. split; [ | reflexivity ].
      vm_compute. right. left.
    + exists problem. exact (f_equal fst Hrun).
  - destruct (list_templates_rejects_malformed_tags (lang := LanguageValue)
                (Registry.get_by_category TEMPLATES)
                (Registry.search_by_tags TEMPLATES)
                (Registry.list_templates TEMPLATES)
                TemplateCategory_values repr
                (Some []) (lit "a,b,c,d,e,f,g,h,i,j,k") (start None))
      as [problem Hrun].
    + reflexivity.
    + vm_compute. discriminate.
    + left. vm_compute. lia.
    + exists problem. exact (f_equal fst Hrun).
Defined.

Lemma bogus_not_a_category : lit "bogus" ∉ TemplateCategory_values.
Proof.
  intros Hin. unfold TemplateCategory_values in Hin.
  repeat (apply elem_of_cons in Hin as [Hin | Hin];
          [ vm_compute in Hin; discriminate | ]).
  inversion Hin.
Defined.

Lemma list_templates_rejects_unknown_category_run :
  fst (Sample.list_templates (Some (lit "bogus")) None (start None))
  = Raise (ValueError (lit "'bogus' is not a valid TemplateCategory")).
Proof.
  assert (Hne : lit "bogus" <> []) by (vm_compute; discriminate).
  exact (f_equal fst
           (list_templates_rejects_unknown_category (lang := LanguageValue)
              (Registry.get_by_category TEMPLATES)
              (Registry.search_by_tags TEMPLATES)
              (Registry.list_templates TEMPLATES)
              TemplateCategory_values repr
              (lit "bogus") None (start None) Hne bogus_not_a_category)).
Defined.

Lemma greet_debug_sets_root_level_run :
  root_level (snd (Sample.greet (lit "Sam") sam_debug)) = DEBUG
  /\ root_level (snd (Sample.greet (lit "Taro") taro_formal))
     = root_level taro_formal.
Proof.
  split.
  - apply (greet_debug_sets_root_level (Member EN) (Member JA)
             (Catalog.get_translation TRANSLATIONS)
             (Registry.get_template TEMPLATES) (lit "Sam") sam_debug).
    + reflexivity.
    + vm_compute. discriminate.
    + vm_compute. lia.
  - apply (greet_debug_sets_root_level (Member EN) (Member JA)
             (Catalog.get_translation TRANSLATIONS)
             (Registry.get_template TEMPLATES) (lit "Taro") taro_formal).
    reflexivity.
Defined.



(** With a category given, malformed tags go unnoticed: the call lists the
    category's templates and returns, or fails on the category alone. *)
Lemma list_templates_malformed_tags_accepted :
  (exists t, t ∈ split COMMA (lit "a,,b") /\ strip t = [])
  /\ fst (Sample.list_templates (Some (lit "formal")) (Some (lit "a,,b"))
            (start None)) = Ok tt
  /\ fst (Sample.list_templates (Some (lit "bogus")) (Some (lit "a,,b"))
            (start None))
     = Raise (ValueError (lit "'bogus' is not a valid TemplateCategory")).
Proof.
  split; [ | split ].
  - exists []. split; [ | reflexivity ]. vm_compute. right. left.
  - vm_compute. reflexivity.
  - vm_compute. reflexivity.
Qed.

(** The empty string is no category, yet passing it raises nothing: every
    template is listed. *)
Lemma list_templates_empty_category_accepted :
  ([] ∉ TemplateCategory_values)
  /\ fst (Sample.list_templates (Some []) None (start None)) = Ok tt.
Proof.
  split.
  - intros Hin. unfold TemplateCategory_values in Hin.
    repeat (apply elem_of_cons in Hin as [Hin | Hin];
            [ vm_compute in Hin; discriminate | ]).
    inversion Hin.
  - vm_compute. reflexivity.
Qed.

(** A call with the debug flag set returns with the root logger at DEBUG,
    not at the INFO it started from. *)
Lemma greet_debug_level_not_restored :
  root_level sam_debug = INFO
  /\ fst (Sample.greet (lit "Sam") sam_debug) = Ok (lit "Hello, Sam! ")
  /\ root_level (snd (Sample.greet (lit "Sam") sam_debug)) = DEBUG
  /\ DEBUG <> INFO.
Proof.
  repeat split; try (vm_compute; reflexivity). vm_compute. discriminate.
Qed.
End Runs.


(** * Further properties of [greet] *)

Section GreetFurther.
Context {lang : Type} `{EqDecision lang}.
Variable Language_EN Language_JA : lang.
Variable get_translation : lang -> Result Translation.
Variable get_template : str -> Result str.

Local Abbreviation greet :=
  (Main.greet Language_EN Language_JA get_translation get_template).
Local Abbreviation cfg_of := (effective_config Language_EN).

Lemma observe_nil (w : World lang) : observe w [] = w.
Proof. destruct w. unfold observe. simpl. now rewrite app_nil_r. Qed.

Lemma valid_of_tests (name : str) :
  negb (truthy name) || negb (truthy (strip name)) = false ->
  (1000 <? length name)%nat = false ->
  strip name <> [] /\ (length name <= 1000)%nat.
Proof.
  intros Hblank Hlong. split.
  - intros Hs. apply blank_test in Hs. congruence.
  - apply Nat.ltb_ge, Hlong.
Qed.

(** A call that returns passed validation. *)
Lemma greet_ok_valid (name : str) (w : World lang) (out : str) :
  fst (greet name w) = Ok out ->
  strip name <> [] /\ (length name <= 1000)%nat.
Proof.
  intros Hok. unfold Main.greet in Hok.
  destruct (negb (truthy name) || negb (truthy (strip name))) eqn:Hblank;
    [ discriminate | ].
  destruct (1000 <? length name)%nat eqn:Hlong; [ discriminate | ].
  now apply valid_of_tests.
Qed.

(** X1: an unsupported language stops [greet] before the registry is
    asked: the only lookup made is the translation, the error leaves as it
    was raised, and it is logged once when it is a [ValueError]. *)
Theorem greet_language_failure_skips_registry (name : str) (w : World lang)
    (e : exn) :
  strip name <> [] -> (length name <= 1000)%nat ->
  get_translation (language (cfg_of w)) = Raise e ->
  greet name w =
    (Raise e,
     {| root_level := if debug (cfg_of w) then DEBUG else root_level w;
        config_obj := config_obj w;
        trace := trace w ++ debug_events name (cfg_of w)
                 ++ GetTranslation (language (cfg_of w))
                    :: (if is_ValueError e
                        then [LogCall ERROR (lit "Language error: %s") [ArgExn e]]
                        else []) |}).
Proof.
  intros Hs Hl Htr. unfold Main.greet, effective_config, debug_events in *.
  rewrite (blank_test_false _ Hs), (proj2 (Nat.ltb_ge _ _) Hl).
  py_unfold. simpl. revert Htr.
  generalize (match config_obj w with
              | Some c => c
              | None => AppConfig_default Language_EN
              end).
  intros cfg Htr. rewrite Htr.
  destruct (debug cfg), (is_ValueError e); simpl; unfold observe; simpl;
    rewrite <- ?app_assoc; reflexivity.
Qed.

(** The world a returning call leaves. *)
Lemma greet_success_world (name : str) (w : World lang) (out : str) :
  fst (greet name w) = Ok out ->
  snd (greet name w) =
    {| root_level := if debug (cfg_of w) then DEBUG else root_level w;
       config_obj := config_obj w;
       trace := trace w ++ debug_events name (cfg_of w)
                ++ [GetTranslation (language (cfg_of w));
                    GetTemplate (template_style (cfg_of w))] |}.
Proof.
  intros Hok. destruct (greet_ok_valid name w out Hok) as [Hs Hl].
  revert Hok. unfold Main.greet, effective_config, debug_events.
  rewrite (blank_test_false _ Hs), (proj2 (Nat.ltb_ge _ _) Hl).
  py_unfold. simpl.
  generalize (match config_obj w with
              | Some c => c
              | None => AppConfig_default Language_EN
              end).
  intros cfg. py_cases; intros Hok; try discriminate;
    unfold observe; simpl; rewrite <- ?app_assoc; reflexivity.
Qed.

(** X2: a call that returns made exactly two lookups, the translation
    first and the template second, and logged no error. *)
Theorem greet_success_makes_two_lookups (name : str) (w : World lang)
    (out : str) :
  fst (greet name w) = Ok out ->
  snd (greet name w) =
    {| root_level := if debug (cfg_of w) then DEBUG else root_level w;
       config_obj := config_obj w;
       trace := trace w ++ debug_events name (cfg_of w)
                ++ [GetTranslation (language (cfg_of w));
                    GetTemplate (template_style (cfg_of w))] |}.
Proof. apply greet_success_world. Qed.

(** X3: the two name checks report different problems, and the blank check
    comes first: a name of whitespace only is reported as empty even when it
    is longer than 1000 characters. *)
Theorem greet_name_problem_texts (name : str) (w : World lang) :
  (forallb is_space name = true ->
   greet name w =
     (Raise (ValidationError [(lit "name", lit "Name cannot be empty")]), w))
  /\ (forallb is_space name = false -> (1000 < length name)%nat ->
      greet name w =
        (Raise (ValidationError
                  [(lit "name", lit "Name is too long (max 1000 characters)")]),
         w)).
Proof.
  split.
  - intros Hsp. apply strip_nil_iff, blank_test in Hsp.
    unfold Main.greet. rewrite Hsp. reflexivity.
  - intros Hsp Hlong. unfold Main.greet.
    rewrite blank_test_false.
    + rewrite (proj2 (Nat.ltb_lt _ _) Hlong). reflexivity.
    + intros Hs. apply strip_nil_iff in Hs. congruence.
Qed.

(** The keyword arguments of [greet] bind the reserved names and no other. *)
Lemma kw_lookup_greet_kwargs (name : str) (cfg : AppConfig lang)
    (tr : Translation) (f : str) :
  kw_lookup f (greet_kwargs name cfg tr) = None <-> f ∉ RESERVED.
Proof.
  unfold RESERVED, greet_kwargs. rewrite !not_elem_of_cons. simpl.
  unfold str_eqb.
  destruct (bool_decide_reflect (lit "name" = f)) as [H1 | H1];
    [ split; [ discriminate | intros (Hn & _); congruence ] | ].
  destruct (bool_decide_reflect (lit "message" = f)) as [H2 | H2];
    [ split; [ discriminate | intros (_ & Hn & _); congruence ] | ].
  destruct (bool_decide_reflect (lit "prefix" = f)) as [H3 | H3];
    [ split; [ discriminate | intros (_ & _ & Hn & _); congruence ] | ].
  destruct (bool_decide_reflect (lit "suffix" = f)) as [H4 | H4];
    [ split; [ discriminate | intros (_ & _ & _ & Hn & _); congruence ] | ].
  split; [ intros _ | reflexivity ].
  repeat split; try congruence. apply not_elem_of_nil.
Qed.

(** A pattern with an unbound bare keyword stops at the first one, with a
    [KeyError] that names it. *)
Lemma format_from_unbound kwargs (n : nat) :
  forall (pattern : str) (field : option str) (fs : list str),
    (length pattern <= n)%nat ->
    fields_from field pattern = Some fs ->
    (forall f, f ∈ fs -> kw_lookup f kwargs = None ->
               existsb keyword_char f = true) ->
    (exists f, f ∈ fs /\ kw_lookup f kwargs = None) ->
    exists f,
      f ∈ fs /\ kw_lookup f kwargs = None
      /\ format_from kwargs field pattern = Raise (KeyError f).
Proof.
  induction n as [| n IH]; intros pattern field fs Hlen Hfs Hkey Hunbound.
  - destruct pattern; [ | simpl in Hlen; lia ].
    destruct field; simpl in Hfs; [ discriminate | ].
    injection Hfs as <-. destruct Hunbound as (f & Hin & _). inversion Hin.
  - destruct pattern as [| c rest].
    { destruct field; simpl in Hfs; [ discriminate | ].
      injection Hfs as <-. destruct Hunbound as (f & Hin & _). inversion Hin. }
    simpl in Hlen. destruct field as [acc |]; simpl in Hfs |- *.
    + destruct (c =? rbrace).
      * destruct (fields_from None rest) as [fs' |] eqn:Hrest; [ | discriminate ].
        injection Hfs as <-.
        destruct (kw_lookup (rev acc) kwargs) as [v |] eqn:Hv.
        -- destruct (IH rest None fs') as (f & Hin & Hnone & Hrun);
             [ lia | exact Hrest | | | ].
           { intros f Hf. apply Hkey. now right. }
           { destruct Hunbound as (f & Hf & Hnone).
             apply elem_of_cons in Hf as [-> | Hf]; [ congruence | ].
             exists f. split; assumption. }
           exists f. split; [ now right | ]. split; [ exact Hnone | ].
           rewrite (field_value_found _ _ _ Hv). simpl. rewrite Hrun. reflexivity.
        -- exists (rev acc). split; [ left | ]. split; [ exact Hv | ].
           unfold field_value. rewrite Hv.
           assert (Hk : existsb keyword_char (rev acc) = true)
             by (apply Hkey; [ left | exact Hv ]).
           destruct (rev acc) as [| a field]; [ discriminate | ].
           rewrite Hk. reflexivity.
      * destruct (c =? lbrace); simpl in Hfs; [ discriminate | ].
        destruct (field_operator c); [ discriminate | ].
        apply (IH rest (Some (c :: acc)) fs); [ lia | assumption .. ].
    + destruct (c =? lbrace).
      * destruct rest as [| c' rest']; [ discriminate | ].
        destruct (c' =? lbrace).
        -- destruct (IH rest' None fs) as (f & Hin & Hnone & Hrun);
             [ simpl in Hlen; lia | assumption .. | ].
           exists f. rewrite Hrun. repeat split; assumption.
        -- apply (IH (c' :: rest') (Some []) fs); [ lia | assumption .. ].
      * destruct (c =? rbrace).
        -- destruct rest as [| c' rest']; [ discriminate | ].
           destruct (c' =? rbrace); [ | discriminate ].
           destruct (IH rest' None fs) as (f & Hin & Hnone & Hrun);
             [ simpl in Hlen; lia | assumption .. | ].
           exists f. rewrite Hrun. repeat split; assumption.
        -- destruct (IH rest None fs) as (f & Hin & Hnone & Hrun);
             [ lia | assumption .. | ].
           exists f. rewrite Hrun. repeat split; assumption.
Qed.

(** The world [greet] leaves when the format call fails. *)
Lemma greet_format_failure (name : str) (w : World lang) (tr : Translation)
    (pat : str) (e : exn) :
  strip name <> [] -> (length name <= 1000)%nat ->
  get_translation (language (cfg_of w)) = Ok tr ->
  get_template (template_style (cfg_of w)) = Ok pat ->
  format (Main.chosen_pattern Language_JA (cfg_of w) pat)
    (greet_kwargs name (cfg_of w) tr) = Raise e ->
  greet name w =
    (Raise e,
     {| root_level := if debug (cfg_of w) then DEBUG else root_level w;
        config_obj := config_obj w;
        trace := trace w ++ debug_events name (cfg_of w)
                 ++ [GetTranslation (language (cfg_of w));
                     GetTemplate (template_style (cfg_of w))]
                 ++ (if is_KeyError e || is_ValueError e
                     then [LogCall ERROR (lit "Template formatting error: %s")
                             [ArgExn e]]
                     else []) |}).
Proof.
  intros Hs Hl. unfold Main.greet, effective_config, debug_events, Main.chosen_pattern.
  rewrite (blank_test_false _ Hs), (proj2 (Nat.ltb_ge _ _) Hl).
  py_unfold. simpl.
  generalize (match config_obj w with
              | Some c => c
              | None => AppConfig_default Language_EN
              end).
  intros cfg Htr Hpat. rewrite Htr, Hpat.
  destruct (debug cfg); cbn;
    destruct (str_eqb (template_style cfg) (lit "default")); cbn;
    try destruct (bool_decide (language cfg = Language_JA)); cbn;
    intros Hf; rewrite Hf; cbn;
    destruct (is_KeyError e || is_ValueError e); cbn;
    unfold observe; cbn; rewrite <- ?app_assoc; reflexivity.
Qed.

(** X4: when the registered pattern of a style other than "default" names
    a placeholder outside the reserved four, [greet] fails with a
    [KeyError] carrying the first such name, after both lookups, and logs the
    formatting error once. *)
Theorem greet_unknown_placeholder (name : str) (w : World lang)
    (tr : Translation) (pat : str) (fs : list str) :
  strip name <> [] -> (length name <= 1000)%nat ->
  get_translation (language (cfg_of w)) = Ok tr ->
  get_template (template_style (cfg_of w)) = Ok pat ->
  template_style (cfg_of w) <> lit "default" ->
  placeholders pat = Some fs ->
  (forall f, f ∈ fs -> f ∉ RESERVED -> existsb keyword_char f = true) ->
  (exists f, f ∈ fs /\ (f ∉ RESERVED)) ->
  exists f,
    f ∈ fs /\ (f ∉ RESERVED)
    /\ greet name w =
         (Raise (KeyError f),
          {| root_level := if debug (cfg_of w) then DEBUG else root_level w;
             config_obj := config_obj w;
             trace := trace w ++ debug_events name (cfg_of w)
                      ++ [GetTranslation (language (cfg_of w));
                          GetTemplate (template_style (cfg_of w));
                          LogCall ERROR (lit "Template formatting error: %s")
                            [ArgExn (KeyError f)]] |}).
Proof.
  intros Hs Hl Htr Hpat Hstyle Hfs Hkey (f0 & Hin0 & Hout0).
  destruct (format_from_unbound (greet_kwargs name (cfg_of w) tr)
              (length pat) pat None fs) as (f & Hin & Hnone & Hrun);
    [ lia | exact Hfs | | | ].
  - intros f Hf Hnone. apply Hkey; [ exact Hf | ].
    apply kw_lookup_greet_kwargs in Hnone. exact Hnone.
  - exists f0. split; [ exact Hin0 | ]. now apply kw_lookup_greet_kwargs.
  - exists f. split; [ exact Hin | ].
    split; [ now apply kw_lookup_greet_kwargs in Hnone | ].
    rewrite (greet_format_failure name w tr pat (KeyError f) Hs Hl Htr Hpat).
    + reflexivity.
    + unfold Main.chosen_pattern, str_eqb.
      rewrite bool_decide_eq_false_2 by exact Hstyle. exact Hrun.
Qed.
End GreetFurther.

(** * Further properties of [async_greet] *)

Section AsyncFurther.
Context {lang : Type} `{EqDecision lang}.
Variable Language_EN Language_JA : lang.
Variable get_translation : lang -> Result Translation.
Variable get_template : str -> Result str.

Local Abbreviation greet :=
  (Main.greet Language_EN Language_JA get_translation get_template).
Local Abbreviation async_greet :=
  (Main.async_greet Language_EN Language_JA get_translation get_template).

(** X23: a failure of [greet] inside [async_greet], met before the
    deadline, is logged once more by [async_greet], after whatever [greet]
    itself logged, and is raised again unchanged. *)
Theorem async_greet_logs_failure_again (resume_at : N) (name : str)
    (w w' : World lang) (e : exn) :
  resume_at <= TIMEOUT_MS ->
  greet name (observe w [Sleep SLEEP_MS]) = (Raise e, w') ->
  is_Exception e = true -> is_TimeoutError e = false ->
  async_greet resume_at name w =
    (Raise e,
     observe w' [LogCall ERROR (lit "Async greeting error: %s") [ArgExn e]]).
Proof.
  intros Hw Hrun Hexc Htime. unfold Main.async_greet. py_unfold. simpl.
  rewrite (proj2 (N.ltb_ge _ _) Hw), Hrun. simpl.
  rewrite andb_false_r. simpl. rewrite Hexc, Htime. reflexivity.
Qed.

End AsyncFurther.

(** * Further properties of [list_templates] *)

Section ListFurther.
Context {lang : Type}.
Variable get_by_category : str -> Result (list (str * TemplateInfo)).
Variable search_by_tags : gset str -> Result (list (str * TemplateInfo)).
Variable TemplateManager_list_templates : Result (list (str * TemplateInfo)).
Variable TemplateCategory_values : list str.
Variable repr : str -> str.

Local Abbreviation list_templates :=
  (Main.list_templates (lang := lang) get_by_category search_by_tags
     TemplateManager_list_templates TemplateCategory_values repr).
Local Abbreviation print_templates := (Main.print_templates (lang := lang)).

Lemma observe_app (w : World lang) (a b : list (Event lang)) :
  observe (observe w a) b = observe w (a ++ b).
Proof. unfold observe. simpl. now rewrite <- app_assoc. Qed.

(** The printing loop never fails and only prints. *)
Lemma print_templates_run (entries : list (str * TemplateInfo)) :
  forall w : World lang,
    exists lines,
      print_templates entries w = (Ok tt, observe w (List.map PrintCall lines))
      /\ length lines = (5 * length entries)%nat.
Proof.
  induction entries as [| [name info] rest IH]; intros w.
  - exists []. split; [ | reflexivity ].
    simpl. unfold Py.ret. now rewrite observe_nil.
  - simpl. py_unfold. simpl. rewrite !observe_app. simpl.
    match goal with
    | |- context [Main.print_templates rest ?w1] =>
        destruct (IH w1) as (lines & -> & Hlen)
    end.
    rewrite observe_app. simpl.
    eexists (_ :: _ :: _ :: _ :: _ :: lines). split; [ reflexivity | ].
    simpl. lia.
Qed.

(** X5: [print_templates] writes five lines for each template, in registry
    order, and does nothing else: it cannot fail, and it leaves the log
    level and the config alone. *)
Theorem print_templates_five_lines (entries : list (str * TemplateInfo))
    (w : World lang) :
  exists lines,
    print_templates entries w = (Ok tt, observe w (List.map PrintCall lines))
    /\ length lines = (5 * length entries)%nat.
Proof. apply print_templates_run. Qed.

Lemma tags_pass (tags : str) :
  (forall t, t ∈ split COMMA tags -> strip t <> []) ->
  forallb (fun t => truthy (strip t)) (split COMMA tags) = true.
Proof.
  intros Hall. apply forallb_forall. intros t Hin.
  apply truthy_true, Hall, list_elem_of_In, Hin.
Qed.

(** X6: with no category, a tags string of at most 10 tags, none blank,
    leads to one search, for the set of the trimmed tags; what it returns is
    printed and the call returns. *)
Theorem list_templates_searches_trimmed_tags (category : option str)
    (tags : str) (w : World lang) (found : list (str * TemplateInfo)) :
  truthy_opt category = false ->
  tags <> [] ->
  (forall t, t ∈ split COMMA tags -> strip t <> []) ->
  (length (split COMMA tags) <= 10)%nat ->
  search_by_tags (list_to_set (List.map strip (split COMMA tags))) = Ok found ->
  list_templates category (Some tags) w =
    print_templates found
      (observe w [SearchByTags
                    (list_to_set (List.map strip (split COMMA tags)))]).
Proof.
  intros Hcat Hne Hall Hlen Hfound.
  assert (Hgo : list_templates None (Some tags) w =
                print_templates found
                  (observe w [SearchByTags
                                (list_to_set (List.map strip (split COMMA tags)))])).
  { destruct tags as [| c cs]; [ contradiction | ].
    unfold Main.list_templates. py_unfold.
    rewrite (tags_pass _ Hall), (proj2 (Nat.ltb_ge _ _) Hlen).
    remember (split COMMA (c :: cs)) as pieces eqn:Hpieces.
    cbn. rewrite Hfound.
    match goal with
    | |- context [Main.print_templates found ?w1] =>
        destruct (print_templates_run found w1) as (lines & Hrun & _)
    end.
    rewrite Hrun. reflexivity. }
  destruct category as [[| c cs] |]; [ exact Hgo | discriminate | exact Hgo ].
Qed.

(** X7: only the set of trimmed tags matters: two tags strings that pass
    the checks and name the same tags, in any order, with any repetition
    and padding, make [list_templates] behave alike. *)
Theorem list_templates_tag_order_irrelevant (category : option str)
    (tags1 tags2 : str) (w : World lang) :
  truthy_opt category = false ->
  tags1 <> [] -> tags2 <> [] ->
  (forall t, t ∈ split COMMA tags1 -> strip t <> []) ->
  (forall t, t ∈ split COMMA tags2 -> strip t <> []) ->
  (length (split COMMA tags1) <= 10)%nat ->
  (length (split COMMA tags2) <= 10)%nat ->
  (forall t, t ∈ List.map strip (split COMMA tags1)
             <-> t ∈ List.map strip (split COMMA tags2)) ->
  list_templates category (Some tags1) w = list_templates category (Some tags2) w.
Proof.
  intros Hcat Hne1 Hne2 Hall1 Hall2 Hlen1 Hlen2 Hsame.
  assert (Hset : (list_to_set (List.map strip (split COMMA tags1)) : gset str)
                 = list_to_set (List.map strip (split COMMA tags2))).
  { apply set_eq. intros t. rewrite !elem_of_list_to_set. apply Hsame. }
  assert (Hgo : list_templates None (Some tags1) w
                = list_templates None (Some tags2) w).
  { destruct tags1 as [| c1 cs1]; [ contradiction | ].
    destruct tags2 as [| c2 cs2]; [ contradiction | ].
    unfold Main.list_templates. py_unfold.
    rewrite (tags_pass _ Hall1), (tags_pass _ Hall2).
    rewrite (proj2 (Nat.ltb_ge _ _) Hlen1), (proj2 (Nat.ltb_ge _ _) Hlen2).
    remember (split COMMA (c1 :: cs1)) as pieces1 eqn:Hpieces1.
    remember (split COMMA (c2 :: cs2)) as pieces2 eqn:Hpieces2.
    cbn. rewrite Hset. reflexivity. }
  destruct category as [[| c cs] |]; [ exact Hgo | discriminate | exact Hgo ].
Qed.

(** X8: a category of the enumerated set is looked up and then used to
    filter, whatever the tags argument is; what the filter returns is
    printed. *)
Theorem list_templates_by_category (category : str) (tags : option str)
    (w : World lang) (found : list (str * TemplateInfo)) :
  category <> [] ->
  category ∈ TemplateCategory_values ->
  get_by_category category = Ok found ->
  list_templates (Some category) tags w =
    print_templates found
      (observe w [MakeCategory category; GetByCategory category]).
Proof.
  intros Hne Hin Hfound. destruct category as [| c cs]; [ contradiction | ].
  unfold Main.list_templates, Main.TemplateCategory. py_unfold. cbn.
  rewrite bool_decide_eq_true_2 by exact Hin. cbn. rewrite Hfound.
  rewrite observe_app. cbn.
  match goal with
  | |- context [Main.print_templates found ?w1] =>
      destruct (print_templates_run found w1) as (lines & Hrun & _)
  end.
  rewrite Hrun. reflexivity.
Qed.

(** The body of [list_templates] before its outer handler only adds to the
    trace. *)
Lemma list_templates_run (category tags : option str) (w : World lang) :
  exists events,
    snd (list_templates category tags w) = observe w events
    /\ forall e,
         fst (list_templates category tags w) = Raise e ->
         exists before,
           events = before ++ [LogCall ERROR (lit "Error listing templates: %s")
                                 [ArgExn e]].
Proof.
  unfold Main.list_templates, Main.TemplateCategory.
  destruct category as [[| c cs] |]; destruct tags as [[| t ts] |];
    try remember (split COMMA (t :: ts)) as pieces eqn:Hpieces;
    py_unfold; cbn -[observe]; py_cases.
  all: try (match goal with
         | |- context [Main.print_templates ?found ?w1] =>
             destruct (print_templates_run found w1) as (lines & Hrun & _);
             rewrite Hrun; cbn -[observe]
         end).
  all: rewrite ?observe_app; cbn -[observe].
  all: (eexists; split; [ reflexivity | ]);
    intros e' He'; try discriminate; injection He' as <-;
    first [ exists []; reflexivity
          | eexists [_]; reflexivity
          | eexists [_; _]; reflexivity
          | eexists [_; _; _]; reflexivity
          | eexists [_; _; _; _]; reflexivity ].
Qed.

(** X9: [list_templates] never touches the root log level or a config,
    whatever its arguments and whatever the registry does. *)
Theorem list_templates_keeps_level_and_config (category tags : option str)
    (w : World lang) :
  root_level (snd (list_templates category tags w)) = root_level w
  /\ config_obj (snd (list_templates category tags w)) = config_obj w.
Proof.
  destruct (list_templates_run category tags w) as (events & -> & _).
  split; reflexivity.
Qed.

(** X10: whenever [list_templates] fails with an exception that derives
    from [Exception], the error is the last thing it logs, under "Error
    listing templates", and everything observed before the call is still in
    the trace. *)
Theorem list_templates_failure_logged_last (category tags : option str)
    (w : World lang) (e : exn) :
  fst (list_templates category tags w) = Raise e ->
  is_Exception e = true ->
  exists before,
    trace (snd (list_templates category tags w)) =
      trace w ++ before
      ++ [LogCall ERROR (lit "Error listing templates: %s") [ArgExn e]].
Proof.
  intros He _.
  destruct (list_templates_run category tags w) as (events & Hworld & Hlast).
  destruct (Hlast e He) as (before & ->).
  exists before. rewrite Hworld. reflexivity.
Qed.
End ListFurther.

(** * Properties of [main] *)

Ltac cli_unfold :=
  unfold Cli.try_, Cli.bind, Cli.assign, Cli.local, Cli.bind_local, Cli.enter,
    Cli.exit, Cli.setLevel, Cli.print, Cli.log, Cli.emit, Cli.lift_result,
    Cli.lift, Cli.throw, Cli.ret.

Ltac cli_cbn := cbn -[Nat.ltb N.ltb].

Section MainProperties.
Context {lang : Type} `{EqDecision lang}.
Variable Language_EN Language_JA : lang.
Variable get_translation : lang -> Result Translation.
Variable get_template : str -> Result str.
Variable get_by_category : str -> Result (list (str * TemplateInfo)).
Variable search_by_tags : gset str -> Result (list (str * TemplateInfo)).
Variable TemplateManager_list_templates : Result (list (str * TemplateInfo)).
Variable TemplateCategory_values : list str.
Variable repr : str -> str.
Variable Language_of_value : str -> option lang.
Variable from_file : str -> Outcome (AppConfig lang).
Variable to_file : AppConfig lang -> str -> Outcome unit.
Variable validate : AppConfig lang -> Outcome unit.
Variable dumps : AppConfig lang -> Outcome str.

Local Abbreviation main :=
  (CommandLine.main Language_EN Language_JA get_translation get_template
     get_by_category search_by_tags TemplateManager_list_templates
     TemplateCategory_values repr Language_of_value from_file to_file
     validate dumps).
Local Abbreviation load_config := (CommandLine.load_config Language_EN from_file).
Local Abbreviation load_outcome := (CommandLine.load_outcome Language_EN from_file).
Local Abbreviation load_events := (CommandLine.load_events (lang := lang)).
Local Abbreviation greet :=
  (Main.greet Language_EN Language_JA get_translation get_template).
Local Abbreviation async_greet :=
  (Main.async_greet Language_EN Language_JA get_translation get_template).
Local Abbreviation list_templates :=
  (Main.list_templates (lang := lang) get_by_category search_by_tags
     TemplateManager_list_templates TemplateCategory_values repr).

Lemma noted_nil (p : Process lang) : noted p [] = p.
Proof. destruct p. unfold noted. simpl. now rewrite app_nil_r. Qed.

Lemma load_config_run (path : option str) (p : Process lang) :
  load_config path p = (load_outcome path, noted p (load_events path)).
Proof.
  destruct path as [[| c cs] |]; cbn; cli_unfold; cbn;
    rewrite ?noted_nil; reflexivity.
Qed.

(** X11: in the greet command a blank or over-long name ends [main] with
    exit status 1 once the configuration has loaded: the problem is logged,
    and neither the resolver nor [to_file] nor [validate] is called. *)
Theorem main_rejects_bad_name (a : GreetArgs) (resume_at : N)
    (p : Process lang) (styles : list (str * TemplateInfo))
    (c : AppConfig lang) :
  TemplateManager_list_templates = Ok styles ->
  load_outcome (arg_config a) = Done c ->
  (forallb is_space (arg_name a) = true \/ (1000 < length (arg_name a))%nat) ->
  exists problem,
    main (Done (GreetCommand a)) resume_at p =
      (Thrown (SystemExit 1),
       {| proc_level := proc_level p;
          proc_config := Some c;
          proc_events := proc_events p ++ [Inner ListTemplates; ParseArgs]
                         ++ load_events (arg_config a)
                         ++ [CliLog ERROR problem []] |}).
Proof.
  intros Hstyles Hload Hbad.
  unfold CommandLine.main, CommandLine.main_dispatch, CommandLine.main_greet.
  cli_unfold.
  rewrite Hstyles. cli_cbn. rewrite load_config_run, Hload. cli_cbn.
  destruct (negb (truthy (arg_name a)) || negb (truthy (strip (arg_name a))))
    eqn:Hblank.
  - eexists. cli_cbn. rewrite <- !app_assoc. reflexivity.
  - destruct Hbad as [Hspace | Hlong].
    + apply strip_nil_iff, blank_test in Hspace. congruence.
    + rewrite (proj2 (Nat.ltb_lt _ _) Hlong). eexists. cli_cbn.
      rewrite <- !app_assoc. reflexivity.
Qed.

Lemma noted_app (p : Process lang) (a b : list (CliEvent lang)) :
  noted (noted p a) b = noted p (a ++ b).
Proof. unfold noted. simpl. now rewrite <- app_assoc. Qed.

(** [main] up to the dispatch, when the registry answers and the command
    line parses. *)
Lemma main_run (args : Args) (resume_at : N) (p : Process lang)
    (styles : list (str * TemplateInfo)) :
  TemplateManager_list_templates = Ok styles ->
  main (Done args) resume_at p =
    Cli.try_
      (CommandLine.main_dispatch Language_EN Language_JA get_translation
         get_template get_by_category search_by_tags
         TemplateManager_list_templates TemplateCategory_values repr
         Language_of_value from_file to_file validate dumps args resume_at)
      CommandLine.main_clauses (started p).
Proof.
  intros Hstyles. unfold CommandLine.main, started.
  unfold Cli.try_ at 1. unfold Cli.bind, Cli.enter, Cli.emit, Cli.lift_result, Cli.lift.
  rewrite Hstyles. cbn [proc_level proc_config proc_events].
  rewrite <- app_assoc. reflexivity.
Qed.

(** The greet branch up to the end of the assignments. *)
Lemma main_greet_assigns (a : GreetArgs) (resume_at : N) (p : Process lang)
    (c : AppConfig lang) (l : lang) :
  load_outcome (arg_config a) = Done c ->
  strip (arg_name a) <> [] -> (length (arg_name a) <= 1000)%nat ->
  Language_of_value (arg_language a) = Some l ->
  let config := CommandLine.cli_config a c l in
  CommandLine.main_greet Language_EN Language_JA get_translation get_template
    repr Language_of_value from_file to_file validate a resume_at p =
    Cli.try_
      (CommandLine.main_greet_run Language_EN Language_JA get_translation
         get_template to_file validate a resume_at config)
      CommandLine.main_greet_clauses
      {| proc_level := proc_level p;
         proc_config := Some config;
         proc_events := proc_events p ++ load_events (arg_config a)
                        ++ [MakeLanguage (arg_language a)] |}.
Proof.
  intros Hload Hs Hl Hlang config.
  unfold CommandLine.main_greet, CommandLine.Language, Cli.try_.
  unfold Cli.bind at 1. rewrite load_config_run, Hload.
  cli_unfold. rewrite (blank_test_false _ Hs), (proj2 (Nat.ltb_ge _ _) Hl).
  cli_cbn. rewrite Hlang. cli_cbn. rewrite <- app_assoc. reflexivity.
Qed.

Lemma log_field_errors_run (errors : list (str * str)) :
  forall p : Process lang,
    CommandLine.log_field_errors errors p
    = (Done tt, noted p (field_error_logs errors)).
Proof.
  induction errors as [| [field error] rest IH]; intros p.
  - cbn. unfold Cli.ret. now rewrite noted_nil.
  - cbn. cli_unfold. cbn. rewrite IH. unfold noted. cbn.
    rewrite <- app_assoc. reflexivity.
Qed.

Lemma print_field_errors_run (errors : list (str * str)) :
  forall p : Process lang,
    CommandLine.print_field_errors errors p
    = (Done tt, noted p (field_error_lines errors)).
Proof.
  induction errors as [| [field error] rest IH]; intros p.
  - cbn. unfold Cli.ret. now rewrite noted_nil.
  - cbn. cli_unfold. cbn. rewrite IH. unfold noted. cbn.
    rewrite <- app_assoc. reflexivity.
Qed.

Ltac greet_branch Hstyles Hload Hs Hl Hlang :=
  rewrite (main_run _ _ _ _ Hstyles);
  unfold CommandLine.main_dispatch;
  unfold Cli.try_ at 1;
  rewrite (main_greet_assigns _ _ _ _ _ Hload Hs Hl Hlang);
  unfold Cli.try_ at 1; unfold CommandLine.main_greet_run.

Ltac proc_eq :=
  unfold noted, started, cli_debug_events, field_error_logs,
    field_error_lines; cli_cbn;
  rewrite <- ?app_assoc; cli_cbn; rewrite <- ?app_assoc; cli_cbn;
  rewrite <- ?app_assoc; reflexivity.

(** X12: with [--save-config] the configuration is written before it is
    validated: when [to_file] succeeds and [validate] then fails, the file
    has been written with the merged configuration, every failing field is
    logged, and [main] ends with exit status 1 without greeting. *)
Theorem main_saves_before_validating (a : GreetArgs) (resume_at : N)
    (p : Process lang) (styles : list (str * TemplateInfo))
    (c : AppConfig lang) (l : lang) (path : str) (errors : list (str * str)) :
  TemplateManager_list_templates = Ok styles ->
  load_outcome (arg_config a) = Done c ->
  strip (arg_name a) <> [] -> (length (arg_name a) <= 1000)%nat ->
  Language_of_value (arg_language a) = Some l ->
  arg_save_config a = Some path -> path <> [] ->
  to_file (CommandLine.cli_config a c l) path = Done tt ->
  validate (CommandLine.cli_config a c l) = Thrown (Core (ValidationError errors)) ->
  main (Done (GreetCommand a)) resume_at p =
    (Thrown (SystemExit 1),
     {| proc_level := if debug (CommandLine.cli_config a c l)
                      then DEBUG else proc_level p;
        proc_config := Some (CommandLine.cli_config a c l);
        proc_events :=
          proc_events p ++ [Inner ListTemplates; ParseArgs]
          ++ load_events (arg_config a) ++ [MakeLanguage (arg_language a)]
          ++ cli_debug_events (CommandLine.cli_config a c l)
          ++ [ToFile (CommandLine.cli_config a c l) path;
              CliLog INFO (lit "Configuration saved to %s") [CliStr path];
              ValidateConfig (CommandLine.cli_config a c l);
              CliLog ERROR (lit "Validation error:") []]
          ++ field_error_logs errors |}).
Proof.
  intros Hstyles Hload Hs Hl Hlang Hsave Hpath Hto Hval.
  greet_branch Hstyles Hload Hs Hl Hlang.
  rewrite Hsave. destruct path as [| ch path']; [ contradiction | ].
  remember (CommandLine.cli_config a c l) as config eqn:Hconfig.
  cli_unfold. destruct (debug config) eqn:Hdebug; cli_cbn;
    rewrite Hto; cli_cbn; rewrite Hval; cli_cbn; cli_unfold;
    rewrite log_field_errors_run; cli_cbn;
    unfold cli_debug_events; rewrite ?Hdebug; proc_eq.
Qed.

(** X13: a greet command that passes every check prints exactly the string
    [greet] returns for the merged configuration and returns; with the debug
    flag the level is set and logged twice, once by [main] and once by
    [greet]. *)
Theorem main_prints_greeting (a : GreetArgs) (resume_at : N)
    (p : Process lang) (styles : list (str * TemplateInfo))
    (c : AppConfig lang) (l : lang) (out : str) :
  TemplateManager_list_templates = Ok styles ->
  load_outcome (arg_config a) = Done c ->
  strip (arg_name a) <> [] -> (length (arg_name a) <= 1000)%nat ->
  Language_of_value (arg_language a) = Some l ->
  truthy_opt (arg_save_config a) = false ->
  validate (CommandLine.cli_config a c l) = Done tt ->
  arg_async_mode a = false ->
  fst (greet (arg_name a)
         {| root_level := if debug (CommandLine.cli_config a c l)
                          then DEBUG else proc_level p;
            config_obj := Some (CommandLine.cli_config a c l);
            trace := [] |}) = Ok out ->
  main (Done (GreetCommand a)) resume_at p =
    (Done tt,
     {| proc_level := if debug (CommandLine.cli_config a c l)
                      then DEBUG else proc_level p;
        proc_config := Some (CommandLine.cli_config a c l);
        proc_events :=
          proc_events p ++ [Inner ListTemplates; ParseArgs]
          ++ load_events (arg_config a) ++ [MakeLanguage (arg_language a)]
          ++ cli_debug_events (CommandLine.cli_config a c l)
          ++ [ValidateConfig (CommandLine.cli_config a c l)]
          ++ List.map Inner
               (debug_events (arg_name a) (CommandLine.cli_config a c l)
                ++ [GetTranslation l; GetTemplate (arg_style a)])
          ++ [Inner (PrintCall out)] |}).
Proof.
  intros Hstyles Hload Hs Hl Hlang Hsave Hval Hsync Hout.
  greet_branch Hstyles Hload Hs Hl Hlang.
  assert (Hmode : async_mode (CommandLine.cli_config a c l) = false)
    by exact Hsync.
  pose proof (greet_success_world _ _ _ _ _ _ _ Hout) as Hworld.
  remember (CommandLine.cli_config a c l) as config eqn:Hconfig.
  assert (Hnosave : match arg_save_config a with
                    | Some ((_ :: _) as path) =>
                        Cli.try_
                          (let+ _ := Cli.emit (ToFile config path) in
                           let+ _ := Cli.lift (to_file config path) in
                           Cli.log INFO (lit "Configuration saved to %s")
                             [CliStr path])
                          (fun e =>
                             if cli_is_IOError e
                             then Some (let+ _ := Cli.log ERROR
                                                    (lit "Error saving config: %s")
                                                    [CliExn e] in
                                        Cli.exit 1)
                             else None)
                    | _ => Cli.ret (lang := lang) tt
                    end = Cli.ret tt).
  { destruct (arg_save_config a) as [[| ch path'] |];
      [ reflexivity | discriminate | reflexivity ]. }
  rewrite Hnosave, Hmode. unfold Cli.call. cli_unfold.
  destruct (debug config) eqn:Hdebug; cli_cbn; rewrite Hval; cli_cbn;
    unfold effective_config in Hworld; cbn in Hworld;
    destruct (greet (arg_name a) _) as [r w'] eqn:Hrun;
    cbn in Hout, Hworld; subst r w'; cli_cbn;
    unfold cli_debug_events, debug_events; rewrite ?Hdebug;
    assert (Hlang' : language config = l) by (subst config; reflexivity);
    assert (Hstyle' : template_style config = arg_style a)
      by (subst config; reflexivity);
    rewrite Hlang', Hstyle'; proc_eq.
Qed.



(** X15: when [from_file] fails in the greet command with an exception
    that is neither a [ValidationError] nor an I/O or JSON error, the handler
    that reports it reads [config.debug] while [config] is still unbound:
    the user sees the error as unexpected, then an [UnboundLocalError] as
    critical, and [main] ends with exit status 1. *)
Theorem main_load_error_is_masked (a : GreetArgs) (resume_at : N)
    (p : Process lang) (styles : list (str * TemplateInfo))
    (path : str) (e : pyexn) :
  TemplateManager_list_templates = Ok styles ->
  arg_config a = Some path -> path <> [] ->
  from_file path = Thrown e ->
  cli_is_Exception e = true ->
  cli_is_ValidationError e = false ->
  cli_is_IOError e || cli_is_JSONDecodeError e = false ->
  main (Done (GreetCommand a)) resume_at p =
    (Thrown (SystemExit 1),
     {| proc_level := proc_level p;
        proc_config := None;
        proc_events :=
          proc_events p
          ++ [Inner ListTemplates; ParseArgs; FromFile path;
              CliLog ERROR (lit "Unexpected error: %s") [CliExn e];
              CliLog ERROR (lit "Critical error: %s")
                [CliExn (UnboundLocalError (lit "config"))]] |}).
Proof.
  intros Hstyles Hconfig Hpath Hfail Hexc Hval Hio.
  rewrite (main_run _ _ _ _ Hstyles).
  unfold CommandLine.main_dispatch, CommandLine.main_greet, Cli.try_.
  unfold Cli.bind at 1. rewrite load_config_run.
  unfold CommandLine.load_outcome, CommandLine.load_events. rewrite Hconfig.
  destruct path as [| ch path']; [ contradiction | ].
  rewrite Hfail. unfold CommandLine.main_greet_clauses.
  destruct e as [inner | | | description | variable | code |];
    try discriminate;
    try (destruct inner; try discriminate);
    cli_unfold; cli_cbn; proc_eq.
Qed.

(** X16: [config save --file F] first loads [F] and then writes what it
    loaded back to [F]: the object given to [to_file] is the one [from_file]
    returned, unchanged, and the path is the same. *)
Theorem main_config_save_rewrites_loaded (file : str) (resume_at : N)
    (p : Process lang) (styles : list (str * TemplateInfo))
    (c : AppConfig lang) :
  TemplateManager_list_templates = Ok styles ->
  file <> [] ->
  from_file file = Done c ->
  to_file c file = Done tt ->
  main (Done (ConfigArgs (lit "save") (Some file))) resume_at p =
    (Done tt,
     {| proc_level := proc_level p;
        proc_config := Some c;
        proc_events :=
          proc_events p
          ++ [Inner ListTemplates; ParseArgs; FromFile file; ToFile c file;
              Inner (PrintCall (lit "Configuration saved to " ++ file))] |}).
Proof.
  intros Hstyles Hfile Hload Hsave.
  rewrite (main_run _ _ _ _ Hstyles).
  unfold CommandLine.main_dispatch, CommandLine.main_config, Cli.try_.
  unfold Cli.bind at 1. rewrite load_config_run.
  unfold CommandLine.load_outcome, CommandLine.load_events.
  destruct file as [| ch file']; [ contradiction | ].
  rewrite Hload.
  change (str_eqb (lit "save") (lit "view")) with false.
  change (str_eqb (lit "save") (lit "validate")) with false.
  change (str_eqb (lit "save") (lit "save")) with true.
  cli_unfold. cli_cbn. rewrite Hsave. cli_cbn. proc_eq.
Qed.

(** X17: the config command cannot go past a file that does not load:
    whatever the action, an I/O or JSON error of [from_file] is logged and
    [main] ends with exit status 1, so [config save] never creates a file. *)
Theorem main_config_needs_loadable_file (action file : str) (resume_at : N)
    (p : Process lang) (styles : list (str * TemplateInfo)) (e : pyexn) :
  TemplateManager_list_templates = Ok styles ->
  file <> [] ->
  from_file file = Thrown e ->
  cli_is_IOError e || cli_is_JSONDecodeError e = true ->
  main (Done (ConfigArgs action (Some file))) resume_at p =
    (Thrown (SystemExit 1),
     {| proc_level := proc_level p;
        proc_config := None;
        proc_events :=
          proc_events p
          ++ [Inner ListTemplates; ParseArgs; FromFile file;
              CliLog ERROR (lit "Error loading config file: %s") [CliExn e]] |}).
Proof.
  intros Hstyles Hfile Hload Hclass.
  rewrite (main_run _ _ _ _ Hstyles).
  unfold CommandLine.main_dispatch, CommandLine.main_config.
  unfold Cli.try_ at 1. unfold Cli.bind at 1. unfold Cli.try_ at 1.
  rewrite load_config_run.
  unfold CommandLine.load_outcome, CommandLine.load_events.
  destruct file as [| ch file']; [ contradiction | ].
  rewrite Hload, Hclass. cli_unfold. cli_cbn. proc_eq.
Qed.

(** X18: [config save] without a file does nothing: no file is read or
    written, nothing is printed or logged, and [main] returns. *)
Theorem main_config_save_without_file (file : option str) (resume_at : N)
    (p : Process lang) (styles : list (str * TemplateInfo)) :
  TemplateManager_list_templates = Ok styles ->
  truthy_opt file = false ->
  main (Done (ConfigArgs (lit "save") file)) resume_at p =
    (Done tt,
     {| proc_level := proc_level p;
        proc_config := Some (AppConfig_default Language_EN);
        proc_events := proc_events p ++ [Inner ListTemplates; ParseArgs] |}).
Proof.
  intros Hstyles Hfile.
  rewrite (main_run _ _ _ _ Hstyles).
  unfold CommandLine.main_dispatch, CommandLine.main_config, Cli.try_.
  unfold Cli.bind at 1. rewrite load_config_run.
  unfold CommandLine.load_outcome, CommandLine.load_events.
  change (str_eqb (lit "save") (lit "view")) with false.
  change (str_eqb (lit "save") (lit "validate")) with false.
  change (str_eqb (lit "save") (lit "save")) with true.
  destruct file as [[| ch file'] |]; try discriminate;
    cli_unfold; cli_cbn; rewrite ?app_nil_r; reflexivity.
Qed.

(** X19: [config validate] on a configuration that fails validation prints
    a heading and one line per failing field, in the order of the error's
    dict, and ends with exit status 1. *)
Theorem main_config_validate_reports_fields (file : option str)
    (resume_at : N) (p : Process lang) (styles : list (str * TemplateInfo))
    (c : AppConfig lang) (errors : list (str * str)) :
  TemplateManager_list_templates = Ok styles ->
  load_outcome file = Done c ->
  validate c = Thrown (Core (ValidationError errors)) ->
  main (Done (ConfigArgs (lit "validate") file)) resume_at p =
    (Thrown (SystemExit 1),
     {| proc_level := proc_level p;
        proc_config := Some c;
        proc_events :=
          proc_events p ++ [Inner ListTemplates; ParseArgs]
          ++ load_events file
          ++ [ValidateConfig c; Inner (PrintCall (lit "Configuration errors:"))]
          ++ field_error_lines errors |}).
Proof.
  intros Hstyles Hload Hval.
  rewrite (main_run _ _ _ _ Hstyles).
  unfold CommandLine.main_dispatch, CommandLine.main_config.
  unfold Cli.try_ at 1. unfold Cli.bind at 1. unfold Cli.try_ at 1.
  rewrite load_config_run, Hload.
  change (str_eqb (lit "validate") (lit "view")) with false.
  change (str_eqb (lit "validate") (lit "validate")) with true.
  cli_unfold. cli_cbn. rewrite Hval. cli_cbn. cli_unfold.
  rewrite print_field_errors_run. cli_cbn. proc_eq.
Qed.

(** X20: the templates command returns when [list_templates] returns, and
    ends with exit status 1 on every exception [list_templates] raises, be
    it one of the two its own clause names or one that falls through to the
    clause of [main]. *)
Theorem main_templates_exit_status (category tags : option str)
    (resume_at : N) (p : Process lang) (styles : list (str * TemplateInfo)) :
  TemplateManager_list_templates = Ok styles ->
  (fst (list_templates category tags (world_of (started p))) = Ok tt ->
   fst (main (Done (TemplatesArgs category tags)) resume_at p) = Done tt)
  /\ (forall e,
        fst (list_templates category tags (world_of (started p))) = Raise e ->
        cli_is_Exception (Core e) = true ->
        fst (main (Done (TemplatesArgs category tags)) resume_at p)
        = Thrown (SystemExit 1)).
Proof.
  intros Hstyles. rewrite (main_run _ _ _ _ Hstyles).
  unfold CommandLine.main_dispatch, CommandLine.main_templates, Cli.try_,
    Cli.call, world_of.
  destruct (list_templates category tags _) as [[[] | e0] w'] eqn:Hrun;
    cbn [fst snd]; split.
  - reflexivity.
  - discriminate.
  - discriminate.
  - intros e He Hexc. injection He as <-.
    unfold CommandLine.main_clauses.
    destruct e0; try discriminate Hexc; cli_unfold; cli_cbn; reflexivity.
Qed.

(** X25: a [KeyboardInterrupt] raised while the config file is being
    loaded, in the config command or in the greet command, passes the
    handlers of the command, none of which takes it, and reaches the clause
    of [main]: the cancellation is logged at INFO and [main] ends with exit
    status 130. *)
Theorem main_interrupt_during_load (args : Args) (path : str)
    (resume_at : N) (p : Process lang) (styles : list (str * TemplateInfo)) :
  TemplateManager_list_templates = Ok styles ->
  path <> [] ->
  from_file path = Thrown KeyboardInterrupt ->
  ((exists action, args = ConfigArgs action (Some path))
   \/ (exists a, args = GreetCommand a /\ arg_config a = Some path)) ->
  main (Done args) resume_at p =
    (Thrown (SystemExit 130),
     {| proc_level := proc_level p;
        proc_config := None;
        proc_events :=
          proc_events p
          ++ [Inner ListTemplates; ParseArgs; FromFile path;
              CliLog INFO ([10] ++ lit "Operation cancelled by user") []] |}).
Proof.
  intros Hstyles Hpath Hload Hargs.
  rewrite (main_run _ _ _ _ Hstyles).
  destruct path as [| ch path']; [ contradiction | ].
  destruct Hargs as [(action & ->) | (a & -> & Hfile)].
  - unfold CommandLine.main_dispatch, CommandLine.main_config.
    unfold Cli.try_ at 1. unfold Cli.bind at 1. unfold Cli.try_ at 1.
    rewrite load_config_run.
    unfold CommandLine.load_outcome, CommandLine.load_events.
    rewrite Hload. cli_unfold. cli_cbn. proc_eq.
  - unfold CommandLine.main_dispatch, CommandLine.main_greet.
    unfold Cli.try_ at 1. unfold Cli.try_ at 1. unfold Cli.bind at 1.
    rewrite load_config_run, Hfile.
    unfold CommandLine.load_outcome, CommandLine.load_events.
    rewrite Hload. cli_unfold. cli_cbn. proc_eq.
Qed.
End MainProperties.

(** ** Which fields of a config file the greet command uses *)

Section FileFields.
Context {lang : Type} `{EqDecision lang}.
Variable Language_EN Language_JA : lang.
Variable get_translation : lang -> Result Translation.
Variable get_template : str -> Result str.
Variable get_by_category : str -> Result (list (str * TemplateInfo)).
Variable search_by_tags : gset str -> Result (list (str * TemplateInfo)).
Variable TemplateManager_list_templates : Result (list (str * TemplateInfo)).
Variable TemplateCategory_values : list str.
Variable repr : str -> str.
Variable Language_of_value : str -> option lang.
Variable from_file1 from_file2 : str -> Outcome (AppConfig lang).
Variable to_file : AppConfig lang -> str -> Outcome unit.
Variable validate : AppConfig lang -> Outcome unit.
Variable dumps : AppConfig lang -> Outcome str.

(** X21: the greet command takes only the debug flag and the custom
    message from a config file: two files that agree on these two fields
    give the same run, whatever their [template_style], [language],
    [async_mode] and [log_level] say, since the command line overwrites
    them. *)
Theorem main_greet_ignores_file_style (a : GreetArgs) (resume_at : N)
    (p : Process lang) (styles : list (str * TemplateInfo)) (path : str)
    (c1 c2 : AppConfig lang) (l : lang) :
  TemplateManager_list_templates = Ok styles ->
  arg_config a = Some path -> path <> [] ->
  from_file1 path = Done c1 -> from_file2 path = Done c2 ->
  debug c1 = debug c2 -> custom_message c1 = custom_message c2 ->
  strip (arg_name a) <> [] -> (length (arg_name a) <= 1000)%nat ->
  Language_of_value (arg_language a) = Some l ->
  CommandLine.main Language_EN Language_JA get_translation get_template
    get_by_category search_by_tags TemplateManager_list_templates
    TemplateCategory_values repr Language_of_value from_file1 to_file
    validate dumps (Done (GreetCommand a)) resume_at p
  = CommandLine.main Language_EN Language_JA get_translation get_template
      get_by_category search_by_tags TemplateManager_list_templates
      TemplateCategory_values repr Language_of_value from_file2 to_file
      validate dumps (Done (GreetCommand a)) resume_at p.
Proof.
  intros Hstyles Hconfig Hpath Hload1 Hload2 Hdebug Hmessage Hs Hl Hlang.
  assert (H1 : CommandLine.load_outcome Language_EN from_file1 (arg_config a)
               = Done c1).
  { unfold CommandLine.load_outcome. rewrite Hconfig.
    destruct path; [ contradiction | exact Hload1 ]. }
  assert (H2 : CommandLine.load_outcome Language_EN from_file2 (arg_config a)
               = Done c2).
  { unfold CommandLine.load_outcome. rewrite Hconfig.
    destruct path; [ contradiction | exact Hload2 ]. }
  assert (Hsame : CommandLine.cli_config a c1 l = CommandLine.cli_config a c2 l).
  { unfold CommandLine.cli_config. rewrite Hdebug, Hmessage. reflexivity. }
  rewrite !(main_run _ _ _ _ _ _ _ _ _ _ _ _ _ _ _ _ _ _ Hstyles).
  unfold CommandLine.main_dispatch. unfold Cli.try_.
  rewrite (main_greet_assigns _ _ _ _ _ _ _ _ _ _ _ _ _ _ H1 Hs Hl Hlang).
  rewrite (main_greet_assigns _ _ _ _ _ _ _ _ _ _ _ _ _ _ H2 Hs Hl Hlang).
  rewrite Hsame. reflexivity.
Qed.
End FileFields.

(** ** Exit statuses *)

Section ExitStatus.
Context {lang : Type} `{EqDecision lang}.
Variable Language_EN Language_JA : lang.
Variable get_translation : lang -> Result Translation.
Variable get_template : str -> Result str.
Variable get_by_category : str -> Result (list (str * TemplateInfo)).
Variable search_by_tags : gset str -> Result (list (str * TemplateInfo)).
Variable TemplateManager_list_templates : Result (list (str * TemplateInfo)).
Variable TemplateCategory_values : list str.
Variable repr : str -> str.
Variable Language_of_value : str -> option lang.
Variable from_file : str -> Outcome (AppConfig lang).
Variable to_file : AppConfig lang -> str -> Outcome unit.
Variable validate : AppConfig lang -> Outcome unit.
Variable dumps : AppConfig lang -> Outcome str.

Variable allowed : Z -> Prop.

Lemma ew_ret {A} (a : A) : exits_within (lang := lang) allowed (Cli.ret a).
Proof. intros p code Hrun. discriminate. Qed.

Lemma ew_exit {A} (code : Z) :
  allowed code -> exits_within (lang := lang) (A := A) allowed (Cli.exit code).
Proof. intros Hok p code' Hrun. injection Hrun as <-. exact Hok. Qed.

Lemma ew_lift {A} (o : Outcome A) :
  (forall code, o = Thrown (SystemExit code) -> allowed code) ->
  exits_within (lang := lang) allowed (Cli.lift o).
Proof. intros Ho p code Hrun. apply Ho, Hrun. Qed.

Lemma ew_lift_result {A} (r : Result A) :
  exits_within (lang := lang) allowed (Cli.lift_result r).
Proof. intros p code Hrun. destruct r; discriminate. Qed.

Lemma ew_emit (e : CliEvent lang) : exits_within allowed (Cli.emit e).
Proof. intros p code Hrun. discriminate. Qed.

Lemma ew_setLevel (level : Z) :
  exits_within (lang := lang) allowed (Cli.setLevel level).
Proof. intros p code Hrun. discriminate. Qed.

Lemma ew_enter : exits_within (lang := lang) allowed Cli.enter.
Proof. intros p code Hrun. discriminate. Qed.

Lemma ew_bind_local (c : AppConfig lang) :
  exits_within allowed (Cli.bind_local c).
Proof. intros p code Hrun. discriminate. Qed.

Lemma ew_local : exits_within (lang := lang) allowed Cli.local.
Proof.
  intros p code Hrun. unfold Cli.local in Hrun.
  destruct (proc_config p); discriminate.
Qed.

Lemma ew_call {A} (c : M lang A) : exits_within allowed (Cli.call c).
Proof.
  intros p code Hrun. unfold Cli.call in Hrun.
  destruct (c _) as [[a | e] w]; discriminate.
Qed.

Lemma ew_bind {A B} (c : Cmd lang A) (k : A -> Cmd lang B) :
  exits_within allowed c -> (forall a, exits_within allowed (k a)) ->
  exits_within allowed (Cli.bind c k).
Proof.
  intros Hc Hk p code Hrun. unfold Cli.bind in Hrun.
  destruct (c p) as [[a | e] p'] eqn:Hcp.
  - exact (Hk a p' code Hrun).
  - apply (Hc p code). rewrite Hcp. cbn in Hrun |- *.
    injection Hrun as ->. reflexivity.
Qed.

Lemma ew_assign (update : AppConfig lang -> AppConfig lang) :
  exits_within allowed (Cli.assign update).
Proof.
  apply ew_bind; [ apply ew_local | intros c; apply ew_bind_local ].
Qed.

Lemma ew_try {A} (body : Cmd lang A) (clauses : pyexn -> option (Cmd lang A)) :
  exits_within allowed body ->
  (forall e handler, clauses e = Some handler -> exits_within allowed handler) ->
  exits_within allowed (Cli.try_ body clauses).
Proof.
  intros Hbody Hclauses p code Hrun. unfold Cli.try_ in Hrun.
  destruct (body p) as [[a | e] p'] eqn:Hbp; [ discriminate | ].
  destruct (clauses e) as [handler |] eqn:Hc.
  - exact (Hclauses e handler Hc p' code Hrun).
  - apply (Hbody p code). rewrite Hbp. exact Hrun.
Qed.

Ltac ew_step :=
  first [ apply ew_ret | apply ew_emit | apply ew_setLevel | apply ew_enter
        | apply ew_bind_local | apply ew_local | apply ew_call
        | apply ew_assign | apply ew_lift_result
        | apply ew_bind; [ | intros ? ] ].

Hypothesis status_1 : allowed 1.
Hypothesis from_file_no_exit :
  forall path code, from_file path <> Thrown (SystemExit code).
Hypothesis to_file_no_exit :
  forall c path code, to_file c path <> Thrown (SystemExit code).
Hypothesis validate_no_exit :
  forall c code, validate c <> Thrown (SystemExit code).
Hypothesis dumps_no_exit :
  forall c code, dumps c <> Thrown (SystemExit code).

Ltac ew_auto :=
  repeat first
    [ ew_step
    | apply ew_exit; exact status_1
    | apply ew_lift; intros ? Hbad; exfalso;
      first [ exact (from_file_no_exit _ _ Hbad)
            | exact (to_file_no_exit _ _ _ Hbad)
            | exact (validate_no_exit _ _ Hbad)
            | exact (dumps_no_exit _ _ Hbad) ] ].

Lemma ew_log_field_errors (errors : list (str * str)) :
  exits_within (lang := lang) allowed (CommandLine.log_field_errors errors).
Proof using All.
  induction errors as [| [field error] rest IH]; cbn; ew_auto. exact IH.
Qed.

Lemma ew_print_field_errors (errors : list (str * str)) :
  exits_within (lang := lang) allowed (CommandLine.print_field_errors errors).
Proof using All.
  induction errors as [| [field error] rest IH]; cbn; ew_auto. exact IH.
Qed.

Lemma ew_load_config (path : option str) :
  exits_within allowed (CommandLine.load_config Language_EN from_file path).
Proof using All.
  destruct path as [[| ch path'] |]; cbn; ew_auto.
Qed.

Lemma ew_main_templates (category tags : option str) :
  exits_within allowed
    (CommandLine.main_templates (lang := lang) get_by_category search_by_tags
       TemplateManager_list_templates TemplateCategory_values repr
       category tags).
Proof using All.
  unfold CommandLine.main_templates. apply ew_try; [ apply ew_call | ].
  intros e handler Hclause.
  destruct (cli_is_ValueError e || cli_is_ValidationError e); [ | discriminate ].
  injection Hclause as <-. ew_auto.
Qed.

Lemma ew_main_config (action : str) (file : option str) :
  exits_within allowed
    (CommandLine.main_config Language_EN from_file to_file validate dumps
       action file).
Proof using All.
  unfold CommandLine.main_config. apply ew_bind.
  { apply ew_try; [ apply ew_load_config | ].
    intros e handler Hclause.
    destruct (cli_is_IOError e || cli_is_JSONDecodeError e); [ | discriminate ].
    injection Hclause as <-. ew_auto. }
  intros config. apply ew_bind; [ apply ew_bind_local | intros _ ].
  destruct (str_eqb action (lit "view")); [ ew_auto | ].
  destruct (str_eqb action (lit "validate")).
  { apply ew_try; [ ew_auto | ].
    intros e handler Hclause.
    destruct e as [[] | | | | | |]; try discriminate.
    injection Hclause as <-. ew_auto. apply ew_print_field_errors. }
  destruct (str_eqb action (lit "save") && truthy_opt file); [ | apply ew_ret ].
  apply ew_try; [ ew_auto | ].
  intros e handler Hclause.
  destruct (cli_is_IOError e); [ | discriminate ].
  injection Hclause as <-. ew_auto.
Qed.

Lemma ew_main_greet_clauses (e : pyexn) (handler : Cmd lang unit) :
  CommandLine.main_greet_clauses e = Some handler ->
  exits_within allowed handler.
Proof using All.
  unfold CommandLine.main_greet_clauses. intros Hclause.
  assert (Hrest : (if cli_is_IOError e || cli_is_JSONDecodeError e
                   then Some (Cli.bind
                                (Cli.log ERROR (lit "Config file error: %s")
                                   [CliExn e])
                                (fun _ => Cli.exit 1))
                   else if cli_is_Exception e
                   then Some (Cli.bind
                                (Cli.log ERROR (lit "Unexpected error: %s")
                                   [CliExn e])
                                (fun _ =>
                                   Cli.bind Cli.local (fun config =>
                                   Cli.bind
                                     (if debug config
                                      then Cli.emit
                                             (CliLogException
                                                (lit "Detailed error information:"))
                                      else Cli.ret tt)
                                     (fun _ => Cli.exit 1))))
                   else None) = Some handler ->
                  exits_within allowed handler).
  { intros Hc. destruct (cli_is_IOError e || cli_is_JSONDecodeError e).
    - injection Hc as <-. ew_auto.
    - destruct (cli_is_Exception e); [ | discriminate ].
      injection Hc as <-. ew_auto.
      destruct (debug _); ew_auto. }
  destruct e as [[] | | | | | |]; try (apply Hrest, Hclause).
  injection Hclause as <-. ew_auto. apply ew_log_field_errors.
Qed.

Lemma ew_main_greet_run (a : GreetArgs) (resume_at : N) (config : AppConfig lang) :
  exits_within allowed
    (CommandLine.main_greet_run Language_EN Language_JA get_translation
       get_template to_file validate a resume_at config).
Proof using All.
  unfold CommandLine.main_greet_run. apply ew_bind.
  { destruct (debug config); ew_auto. }
  intros _. apply ew_bind.
  { destruct (arg_save_config a) as [[| ch path'] |]; try apply ew_ret.
    apply ew_try; [ ew_auto | ].
    intros e handler Hclause.
    destruct (cli_is_IOError e); [ | discriminate ].
    injection Hclause as <-. ew_auto. }
  intros _. ew_auto.
  destruct (async_mode config); [ | apply ew_call ].
  apply ew_try; [ apply ew_call | ].
  intros e handler Hclause.
  destruct (cli_is_TimeoutError e).
  - injection Hclause as <-. ew_auto.
  - destruct (cli_is_Exception e); [ | discriminate ].
    injection Hclause as <-. ew_auto.
Qed.

Lemma ew_main_greet (a : GreetArgs) (resume_at : N) :
  exits_within allowed
    (CommandLine.main_greet Language_EN Language_JA get_translation
       get_template repr Language_of_value from_file to_file validate
       a resume_at).
Proof using All.
  unfold CommandLine.main_greet.
  apply ew_try; [ | apply ew_main_greet_clauses ].
  apply ew_bind; [ apply ew_load_config | intros config ].
  apply ew_bind; [ apply ew_bind_local | intros _ ].
  destruct (negb (truthy (arg_name a)) || negb (truthy (strip (arg_name a))));
    [ ew_auto | ].
  destruct (1000 <? length (arg_name a))%nat; [ ew_auto | ].
  do 6 (apply ew_bind; [ first [ apply ew_assign | apply ew_emit ] | intros _ ]).
  apply ew_bind.
  { apply ew_lift. unfold CommandLine.Language.
    destruct (Language_of_value (arg_language a)); discriminate. }
  intros l. apply ew_bind; [ apply ew_assign | intros _ ].
  apply ew_bind; [ apply ew_local | intros merged ].
  apply ew_main_greet_run.
Qed.

Lemma ew_main_dispatch (args : Args) (resume_at : N) :
  exits_within allowed
    (CommandLine.main_dispatch Language_EN Language_JA get_translation
       get_template get_by_category search_by_tags
       TemplateManager_list_templates TemplateCategory_values repr
       Language_of_value from_file to_file validate dumps args resume_at).
Proof using All.
  destruct args as [| category tags | action file | a | [| ch command]]; cbn.
  - apply ew_emit.
  - apply ew_main_templates.
  - apply ew_main_config.
  - apply ew_main_greet.
  - apply ew_emit.
  - apply ew_emit.
Qed.
End ExitStatus.

Section ExitStatusOfMain.
Context {lang : Type} `{EqDecision lang}.
Variable Language_EN Language_JA : lang.
Variable get_translation : lang -> Result Translation.
Variable get_template : str -> Result str.
Variable get_by_category : str -> Result (list (str * TemplateInfo)).
Variable search_by_tags : gset str -> Result (list (str * TemplateInfo)).
Variable TemplateManager_list_templates : Result (list (str * TemplateInfo)).
Variable TemplateCategory_values : list str.
Variable repr : str -> str.
Variable Language_of_value : str -> option lang.
Variable from_file : str -> Outcome (AppConfig lang).
Variable to_file : AppConfig lang -> str -> Outcome unit.
Variable validate : AppConfig lang -> Outcome unit.
Variable dumps : AppConfig lang -> Outcome str.

(** X22: provided the methods of [AppConfig] do not call [sys.exit]
    themselves, every exit status [main] ends with is 1, or 130 after a
    [KeyboardInterrupt], or the one [parse_args] left with. *)
Theorem main_exit_statuses (parsed : Outcome Args) (resume_at : N)
    (p : Process lang) (code : Z) :
  (forall path k, from_file path <> Thrown (SystemExit k)) ->
  (forall c path k, to_file c path <> Thrown (SystemExit k)) ->
  (forall c k, validate c <> Thrown (SystemExit k)) ->
  (forall c k, dumps c <> Thrown (SystemExit k)) ->
  fst (CommandLine.main Language_EN Language_JA get_translation get_template
         get_by_category search_by_tags TemplateManager_list_templates
         TemplateCategory_values repr Language_of_value from_file to_file
         validate dumps parsed resume_at p) = Thrown (SystemExit code) ->
  code = 1%Z \/ code = 130%Z \/ parsed = Thrown (SystemExit code).
Proof.
  intros Hfrom Hto Hval Hdumps.
  set (allowed := fun k : Z =>
                    k = 1%Z \/ k = 130%Z \/ parsed = Thrown (SystemExit k)).
  revert p code. change (exits_within allowed
    (CommandLine.main Language_EN Language_JA get_translation get_template
       get_by_category search_by_tags TemplateManager_list_templates
       TemplateCategory_values repr Language_of_value from_file to_file
       validate dumps parsed resume_at)).
  unfold CommandLine.main. apply ew_try.
  - apply ew_bind; [ apply ew_enter | intros _ ].
    apply ew_bind; [ apply ew_emit | intros _ ].
    apply ew_bind; [ apply ew_lift_result | intros _ ].
    apply ew_bind; [ apply ew_emit | intros _ ].
    apply ew_bind.
    + apply ew_lift. intros k Hk. right. right. exact Hk.
    + intros args. apply ew_main_dispatch; try assumption. now left.
  - intros e handler Hclause. unfold CommandLine.main_clauses in Hclause.
    destruct (cli_is_KeyboardInterrupt e).
    + injection Hclause as <-.
      apply ew_bind; [ apply ew_emit | intros _ ].
      apply ew_exit. right. now left.
    + destruct (cli_is_Exception e); [ | discriminate ].
      injection Hclause as <-.
      apply ew_bind; [ apply ew_emit | intros _ ].
      apply ew_exit. now left.
Qed.
End ExitStatusOfMain.

(** ** The further theorems at concrete inputs *)

Module MoreRuns.
Import Sample SampleCli.

Lemma greet_language_failure_run :
  Sample.greet (lit "Sam") raw_language =
    (Raise Catalog.UnsupportedLanguageError,
     {| root_level := INFO;
        config_obj := config_obj raw_language;
        trace := [GetTranslation (Raw (lit "xx"));
                  LogCall ERROR (lit "Language error: %s")
                    [ArgExn Catalog.UnsupportedLanguageError]] |}).
Proof.
  unfold Sample.greet. erewrite greet_language_failure_skips_registry; cycle 1.
  - vm_compute. discriminate.
  - vm_compute. lia.
  - reflexivity.
  - reflexivity.
Defined.

Lemma greet_success_run :
  trace (snd (Sample.greet (lit "Sam") sam_debug)) =
    [SetLevel DEBUG;
     LogCall DEBUG (lit "Generating greeting for %s") [ArgStr (lit "Sam")];
     GetTranslation (Member EN); GetTemplate (lit "default")].
Proof.
  unfold Sample.greet.
  erewrite (greet_success_makes_two_lookups _ _ _ _ _ _ (lit "Hello, Sam! ")).
  - reflexivity.
  - vm_compute. reflexivity.
Defined.

Lemma greet_name_problem_run :
  Sample.greet (repeat 32 1001) sam_debug =
    (Raise (ValidationError [(lit "name", lit "Name cannot be empty")]), sam_debug)
  /\ Sample.greet (repeat 97 1001) sam_debug =
       (Raise (ValidationError
                 [(lit "name", lit "Name is too long (max 1000 characters)")]),
        sam_debug).
Proof.
  split.
  - apply (greet_name_problem_texts (Member EN) (Member JA)
             (Catalog.get_translation TRANSLATIONS)
             (Registry.get_template TEMPLATES)).
    vm_compute. reflexivity.
  - apply (greet_name_problem_texts (Member EN) (Member JA)
             (Catalog.get_translation TRANSLATIONS)
             (Registry.get_template TEMPLATES)).
    + vm_compute. reflexivity.
    + rewrite repeat_length. lia.
Defined.

Lemma greet_unknown_placeholder_run :
  fst (greet_shout (lit "Sam") shout) = Raise (KeyError (lit "nickname")).
Proof.
  destruct (greet_unknown_placeholder (Member EN) (Member JA)
              (Catalog.get_translation TRANSLATIONS)
              (Registry.get_template SHOUT_TEMPLATES)
              (lit "Sam") shout
              {| greeting_prefix := lit "Hello"; greeting_suffix := lit "!" |}
              (lit "HEY {nickname}! {message}")
              [lit "nickname"; lit "message"])
    as (f & Hin & Hout & Hrun).
  - vm_compute. discriminate.
  - vm_compute. lia.
  - reflexivity.
  - reflexivity.
  - vm_compute. discriminate.
  - vm_compute. reflexivity.
  - intros f Hin Hout.
    apply elem_of_cons in Hin as [-> | Hin]; [ vm_compute; reflexivity | ].
    apply elem_of_cons in Hin as [-> | Hin]; [ vm_compute; reflexivity | ].
    inversion Hin.
  - exists (lit "nickname"). split; [ left | ].
    intros Hin. unfold RESERVED in Hin.
    repeat (apply elem_of_cons in Hin as [Hin | Hin];
            [ vm_compute in Hin; discriminate | ]).
    inversion Hin.
  - apply elem_of_cons in Hin as [-> | Hin].
    + unfold greet_shout. rewrite Hrun. reflexivity.
    + apply elem_of_cons in Hin as [-> | Hin]; [ | inversion Hin ].
      exfalso. apply Hout. unfold RESERVED. right. left.
Defined.

Lemma split_polite_basic :
  split COMMA (lit "polite, basic") = [lit "polite"; lit " basic"].
Proof. vm_compute. reflexivity. Defined.

Lemma split_basic_polite_basic :
  split COMMA (lit "basic,polite ,basic")
  = [lit "basic"; lit "polite "; lit "basic"].
Proof. vm_compute. reflexivity. Defined.

Lemma list_templates_searches_run :
  Sample.list_templates None (Some (lit "polite, basic")) (start None)
  = Main.print_templates
      (List.filter (fun entry => negb (str_eqb (fst entry) (lit "casual")))
         TEMPLATES)
      (observe (start None)
         [SearchByTags
            (list_to_set
               (List.map strip (split COMMA (lit "polite, basic"))))]).
Proof.
  apply (list_templates_searches_trimmed_tags
           (Registry.get_by_category TEMPLATES)
           (Registry.search_by_tags TEMPLATES)
           (Registry.list_templates TEMPLATES)
           TemplateCategory_values repr).
  - reflexivity.
  - vm_compute. discriminate.
  - rewrite split_polite_basic. intros t Hin.
    apply elem_of_cons in Hin as [-> | Hin]; [ vm_compute; discriminate | ].
    apply elem_of_cons in Hin as [-> | Hin]; [ vm_compute; discriminate | ].
    inversion Hin.
  - rewrite split_polite_basic. simpl. lia.
  - vm_compute. reflexivity.
Defined.

Lemma list_templates_tag_order_run :
  Sample.list_templates None (Some (lit "polite, basic")) (start None)
  = Sample.list_templates None (Some (lit "basic,polite ,basic")) (start None).
Proof.
  apply (list_templates_tag_order_irrelevant
           (Registry.get_by_category TEMPLATES)
           (Registry.search_by_tags TEMPLATES)
           (Registry.list_templates TEMPLATES)
           TemplateCategory_values repr).
  - reflexivity.
  - vm_compute. discriminate.
  - vm_compute. discriminate.
  - rewrite split_polite_basic. intros t Hin.
    repeat (apply elem_of_cons in Hin as [-> | Hin];
            [ vm_compute; discriminate | ]).
    inversion Hin.
  - rewrite split_basic_polite_basic. intros t Hin.
    repeat (apply elem_of_cons in Hin as [-> | Hin];
            [ vm_compute; discriminate | ]).
    inversion Hin.
  - rewrite split_polite_basic. simpl. lia.
  - rewrite split_basic_polite_basic. simpl. lia.
  - intros t. rewrite split_polite_basic, split_basic_polite_basic.
    cbn [List.map].
    replace (strip (lit "polite")) with (lit "polite") by (vm_compute; reflexivity).
    replace (strip (lit " basic")) with (lit "basic") by (vm_compute; reflexivity).
    replace (strip (lit "basic")) with (lit "basic") by (vm_compute; reflexivity).
    replace (strip (lit "polite ")) with (lit "polite") by (vm_compute; reflexivity).
    rewrite !elem_of_cons, !elem_of_nil. tauto.
Defined.

Lemma formal_is_a_category : lit "formal" ∈ TemplateCategory_values.
Proof. unfold TemplateCategory_values. right. left. Defined.

Lemma list_templates_by_category_run :
  fst (Sample.list_templates (Some (lit "formal")) (Some (lit ",,")) (start None))
  = Ok tt.
Proof.
  unfold Sample.list_templates.
  rewrite (list_templates_by_category
             (Registry.get_by_category TEMPLATES)
             (Registry.search_by_tags TEMPLATES)
             (Registry.list_templates TEMPLATES)
             TemplateCategory_values repr
             (lit "formal") (Some (lit ",,")) (start None)
             (List.filter (fun entry => str_eqb (category (snd entry)) (lit "formal"))
                TEMPLATES)).
  - vm_compute. reflexivity.
  - vm_compute. discriminate.
  - exact formal_is_a_category.
  - reflexivity.
Defined.

Lemma list_templates_failure_run :
  exists before,
    trace (snd (Sample.list_templates None (Some (lit "a,,b")) (start None)))
    = trace (start None) ++ before
      ++ [LogCall ERROR (lit "Error listing templates: %s")
            [ArgExn (ValidationError
                       [(lit "tags", lit "Empty tags are not allowed")])]].
Proof.
  apply (list_templates_failure_logged_last
           (Registry.get_by_category TEMPLATES)
           (Registry.search_by_tags TEMPLATES)
           (Registry.list_templates TEMPLATES)
           TemplateCategory_values repr).
  - vm_compute. reflexivity.
  - reflexivity.
Defined.

Ltac sample_main := unfold SampleCli.main, SampleCli.main_alt.

Lemma main_rejects_bad_name_run :
  exists problem,
    SampleCli.main (Done (GreetCommand (greet_args "   "))) 100 boot
    = (Thrown (SystemExit 1),
       {| proc_level := INFO;
          proc_config := Some (AppConfig_default (Member EN));
          proc_events := [Inner ListTemplates; ParseArgs;
                          CliLog ERROR problem []] |}).
Proof.
  sample_main.
  destruct (main_rejects_bad_name (Member EN) (Member JA)
              (Catalog.get_translation TRANSLATIONS)
              (Registry.get_template TEMPLATES)
              (Registry.get_by_category TEMPLATES)
              (Registry.search_by_tags TEMPLATES)
              (Registry.list_templates TEMPLATES) TemplateCategory_values repr
              Language_of_value from_file to_file validate dumps
              (greet_args "   ") 100 boot TEMPLATES
              (AppConfig_default (Member EN)))
    as (problem & Hrun).
  - reflexivity.
  - reflexivity.
  - left. vm_compute. reflexivity.
  - exists problem. rewrite Hrun. reflexivity.
Defined.

Lemma main_saves_before_validating_run :
  fst (SampleCli.main
         (Done (GreetCommand (greet_team "Sam" "nope" false (Some (lit "out.json")))))
         100 boot) = Thrown (SystemExit 1)
  /\ exists c,
       ToFile c (lit "out.json")
       ∈ proc_events
           (snd (SampleCli.main
                   (Done (GreetCommand
                            (greet_team "Sam" "nope" false (Some (lit "out.json")))))
                   100 boot)).
Proof.
  sample_main.
  erewrite main_saves_before_validating; cycle 1.
  - reflexivity.
  - reflexivity.
  - vm_compute. discriminate.
  - vm_compute. lia.
  - reflexivity.
  - reflexivity.
  - vm_compute. discriminate.
  - reflexivity.
  - reflexivity.
  - split; [ reflexivity | ]. eexists.
    cbn [snd proc_events]. rewrite !elem_of_app.
    do 5 right. left. constructor.
Defined.

Lemma main_prints_greeting_run :
  SampleCli.main (Done (GreetCommand (greet_args "Sam"))) 100 boot
  = (Done tt,
     {| proc_level := INFO;
        proc_config := Some (AppConfig_default (Member EN));
        proc_events :=
          [Inner ListTemplates; ParseArgs; MakeLanguage (lit "en");
           ValidateConfig (AppConfig_default (Member EN));
           Inner (GetTranslation (Member EN));
           Inner (GetTemplate (lit "default"));
           Inner (PrintCall (lit "Hello, Sam! "))] |}).
Proof.
  sample_main.
  erewrite (main_prints_greeting _ _ _ _ _ _ _ _ _ _ _ _ _ _
              (greet_args "Sam") 100 boot TEMPLATES
              (AppConfig_default (Member EN)) (Member EN) (lit "Hello, Sam! ")).
  - vm_compute. reflexivity.
  - reflexivity.
  - reflexivity.
  - vm_compute. discriminate.
  - vm_compute. lia.
  - reflexivity.
  - reflexivity.
  - reflexivity.
  - reflexivity.
  - vm_compute. reflexivity.
Defined.


Lemma main_load_error_run :
  SampleCli.main (Done (GreetCommand (greet_with_file "extra.json"))) 100 boot
  = (Thrown (SystemExit 1),
     {| proc_level := INFO;
        proc_config := None;
        proc_events :=
          [Inner ListTemplates; ParseArgs; FromFile (lit "extra.json");
           CliLog ERROR (lit "Unexpected error: %s")
             [CliExn (OtherError (lit "TypeError"))];
           CliLog ERROR (lit "Critical error: %s")
             [CliExn (UnboundLocalError (lit "config"))]] |}).
Proof.
  sample_main.
  erewrite main_load_error_is_masked; cycle 1.
  - reflexivity.
  - reflexivity.
  - vm_compute. discriminate.
  - vm_compute. reflexivity.
  - reflexivity.
  - reflexivity.
  - reflexivity.
  - reflexivity.
Defined.

Lemma main_config_save_run :
  fst (SampleCli.main (Done (ConfigArgs (lit "save") (Some (lit "team.json"))))
         100 boot) = Done tt.
Proof.
  sample_main.
  erewrite main_config_save_rewrites_loaded; cycle 1.
  - reflexivity.
  - vm_compute. discriminate.
  - vm_compute. reflexivity.
  - reflexivity.
  - reflexivity.
Defined.

Lemma main_config_missing_file_run :
  fst (SampleCli.main (Done (ConfigArgs (lit "save") (Some (lit "new.json"))))
         100 boot) = Thrown (SystemExit 1).
Proof.
  sample_main.
  erewrite main_config_needs_loadable_file; cycle 1.
  - reflexivity.
  - vm_compute. discriminate.
  - vm_compute. reflexivity.
  - reflexivity.
  - reflexivity.
Defined.

Lemma main_config_save_without_file_run :
  SampleCli.main (Done (ConfigArgs (lit "save") None)) 100 boot
  = (Done tt,
     {| proc_level := INFO;
        proc_config := Some (AppConfig_default (Member EN));
        proc_events := [Inner ListTemplates; ParseArgs] |}).
Proof.
  sample_main.
  erewrite main_config_save_without_file; cycle 1.
  - reflexivity.
  - reflexivity.
  - reflexivity.
Defined.

Lemma main_config_validate_run :
  fst (CommandLine.main (Member EN) (Member JA)
            (Catalog.get_translation TRANSLATIONS)
            (Registry.get_template TEMPLATES)
            (Registry.get_by_category TEMPLATES)
            (Registry.search_by_tags TEMPLATES)
            (Registry.list_templates TEMPLATES) TemplateCategory_values repr
            Language_of_value from_file to_file
            (fun _ => Thrown (Core (ValidationError
                                      [(lit "template_style", lit "Unknown");
                                       (lit "language", lit "Unsupported")])))
            dumps (Done (ConfigArgs (lit "validate") None)) 100 boot)
  = Thrown (SystemExit 1).
Proof.
  erewrite main_config_validate_reports_fields; cycle 1.
  - reflexivity.
  - reflexivity.
  - reflexivity.
  - reflexivity.
Defined.

Lemma main_templates_exit_run :
  fst (SampleCli.main (Done (TemplatesArgs (Some (lit "bogus")) None)) 100 boot)
  = Thrown (SystemExit 1).
Proof.
  sample_main.
  eapply (proj2 (main_templates_exit_status _ _ _ _ _ _ _ _ _ _ _ _ _ _
                   (Some (lit "bogus")) None 100 boot TEMPLATES eq_refl)).
  - vm_compute. reflexivity.
  - reflexivity.
Defined.

Lemma main_greet_ignores_file_style_run :
  SampleCli.main (Done (GreetCommand (greet_team "Sam" "formal" false None)))
    100 boot
  = SampleCli.main_alt (Done (GreetCommand (greet_team "Sam" "formal" false None)))
      100 boot.
Proof.
  sample_main.
  eapply main_greet_ignores_file_style.
  - reflexivity.
  - reflexivity.
  - vm_compute. discriminate.
  - vm_compute. reflexivity.
  - vm_compute. reflexivity.
  - reflexivity.
  - reflexivity.
  - vm_compute. discriminate.
  - vm_compute. lia.
  - reflexivity.
Defined.

Lemma sample_from_file_no_exit (path : str) (k : Z) :
  from_file path <> Thrown (SystemExit k).
Proof.
  unfold from_file.
  destruct (str_eqb path (lit "team.json")); [ discriminate | ].
  destruct (str_eqb path (lit "broken.json")); [ discriminate | ].
  destruct (str_eqb path (lit "extra.json")); discriminate.
Defined.

Lemma sample_to_file_no_exit (c : AppConfig LanguageValue) (path : str) (k : Z) :
  to_file c path <> Thrown (SystemExit k).
Proof.
  unfold to_file. destruct (starts_with path (lit "/readonly/")); discriminate.
Defined.

Lemma sample_validate_no_exit (c : AppConfig LanguageValue) (k : Z) :
  validate c <> Thrown (SystemExit k).
Proof.
  unfold validate. destruct (Registry.find _ _); discriminate.
Defined.

Lemma main_exit_statuses_run :
  (1 = 1 \/ 1 = 130
   \/ Done (ConfigArgs (lit "view") (Some (lit "broken.json")))
      = Thrown (SystemExit 1))%Z.
Proof.
  apply (main_exit_statuses (Member EN) (Member JA)
           (Catalog.get_translation TRANSLATIONS)
           (Registry.get_template TEMPLATES)
           (Registry.get_by_category TEMPLATES)
           (Registry.search_by_tags TEMPLATES)
           (Registry.list_templates TEMPLATES) TemplateCategory_values repr
           Language_of_value from_file to_file validate dumps
           (Done (ConfigArgs (lit "view") (Some (lit "broken.json")))) 100 boot 1).
  - exact sample_from_file_no_exit.
  - exact sample_to_file_no_exit.
  - exact sample_validate_no_exit.
  - intros c k. discriminate.
  - vm_compute. reflexivity.
Defined.

Lemma async_greet_logs_failure_again_run :
  exists key,
    Sample.async_greet 100 (lit "Sam") missing_style
    = (Raise (KeyError key),
       {| root_level := INFO;
          config_obj := config_obj missing_style;
          trace := [Sleep SLEEP_MS;
                    GetTranslation (Member EN);
                    GetTemplate (lit "nope");
                    LogCall ERROR (lit "Template style '%s' not found")
                      [ArgStr (lit "nope")];
                    LogCall ERROR (lit "Async greeting error: %s")
                      [ArgExn (KeyError key)]] |}).
Proof.
  unfold Sample.async_greet. eexists.
  erewrite async_greet_logs_failure_again; cycle 1.
  - vm_compute. discriminate.
  - vm_compute. reflexivity.
  - reflexivity.
  - reflexivity.
  - vm_compute. reflexivity.
Defined.


Lemma main_interrupt_during_load_run :
  fst (CommandLine.main (Member EN) (Member JA)
         (Catalog.get_translation TRANSLATIONS)
         (Registry.get_template TEMPLATES)
         (Registry.get_by_category TEMPLATES)
         (Registry.search_by_tags TEMPLATES)
         (Registry.list_templates TEMPLATES) TemplateCategory_values repr
         Language_of_value (fun _ => Thrown KeyboardInterrupt) to_file
         validate dumps
         (Done (GreetCommand (greet_with_file "team.json"))) 100 boot)
  = Thrown (SystemExit 130).
Proof.
  refine (f_equal fst
            (main_interrupt_during_load (Member EN) (Member JA)
               (Catalog.get_translation TRANSLATIONS)
               (Registry.get_template TEMPLATES)
               (Registry.get_by_category TEMPLATES)
               (Registry.search_by_tags TEMPLATES)
               (Registry.list_templates TEMPLATES) TemplateCategory_values repr
               Language_of_value (fun _ => Thrown KeyboardInterrupt) to_file
               validate dumps
               (GreetCommand (greet_with_file "team.json")) (lit "team.json")
               100 boot TEMPLATES _ _ _ _)).
  - reflexivity.
  - vm_compute. discriminate.
  - reflexivity.
  - right. exists (greet_with_file "team.json"). split; reflexivity.
Defined.
End MoreRuns.
